(** * BeatyPets RAG system (DSPy + LanceDB notebook): a shallow embedding

    The development follows the notebook [DSPy-LanceDB-demo.ipynb]:
    - the Python built-ins the code relies on ([str.split], [str.join],
      [range], slicing, [re.search(r'\d+')], [int]);
    - [Vectorstore] (chunking, persistence, hybrid search);
    - [RAG], [EvaluatorRAG] and [RAG_Assitant].

    Python strings are sequences of Unicode code points; exceptions are an
    explicit error result; the storage engine, the embedding model and the
    language model are collaborators of the program and appear as type
    classes, so that every statement holds for any of their instances. *)

From Stdlib Require Import ZArith NArith QArith List String Ascii Lia.
From stdpp Require Import base gmap strings list.

(** ** Python values, exceptions and built-ins *)

(** A Python [str]: the sequence of its code points. *)
Abbreviation str := (list N).

(** A string literal of the source, as a Python [str]. *)
Definition py (s : string) : str :=
  List.map N_of_ascii (list_ascii_of_string s).

Inductive exn : Type :=
  | ValueError (msg : string)
  | TypeError (msg : string)
  | AttributeError (attr : string)
  | TableNotFound (name : str)
  | CollaboratorError (code : N).

Inductive result (A : Type) : Type :=
  | Ok (a : A)
  | Raise (e : exn).
Arguments Ok {A} a.
Arguments Raise {A} e.

Definition rbind {A B} (r : result A) (k : A -> result B) : result B :=
  match r with
  | Ok a => k a
  | Raise e => Raise e
  end.

(** Python objects that can reach the evaluator's metric; [PyObject] is any
    object of another class, named by its identity. *)
Inductive value : Type :=
  | PyNone
  | PyBool (b : bool)
  | PyInt (n : Z)
  | PyFloat (bits : N)
  | PyStr (s : str)
  | PyObject (id : N).

(** [str.isspace] on one code point ([_PyUnicode_IsWhitespace]). *)
Definition py_isspace (c : N) : bool :=
  ((9 <=? c) && (c <=? 13)
   || (28 <=? c) && (c <=? 32)
   || (c =? 133) || (c =? 160) || (c =? 5760)
   || (8192 <=? c) && (c <=? 8202)
   || (c =? 8232) || (c =? 8233) || (c =? 8239) || (c =? 8287)
   || (c =? 12288))%N.

(** [s.split()] with no separator: maximal runs of non-whitespace; [cur]
    is the word being scanned. *)
Fixpoint split_ws (cur : str) (s : str) : list str :=
  match s with
  | [] => match cur with [] => [] | _ :: _ => [cur] end
  | c :: s' =>
      if py_isspace c then
        match cur with
        | [] => split_ws [] s'
        | _ :: _ => cur :: split_ws [] s'
        end
      else split_ws (cur ++ [c]) s'
  end.

Definition py_split (s : str) : list str := split_ws [] s.

(** [sep.join(parts)]. *)
Fixpoint py_join (sep : str) (parts : list str) : str :=
  match parts with
  | [] => []
  | p :: rest =>
      match rest with
      | [] => p
      | _ :: _ => p ++ sep ++ py_join sep rest
      end
  end.

(** Number of items of [range(start, stop, step)] for [step <> 0]. *)
Definition range_len (start stop step : Z) : Z :=
  if (0 <? step)%Z then
    if (start <? stop)%Z then ((stop - start - 1) / step + 1)%Z else 0%Z
  else
    if (stop <? start)%Z then ((start - stop - 1) / (- step) + 1)%Z else 0%Z.

(** [range(start, stop, step)], as the list it iterates over. *)
Definition py_range (start stop step : Z) : result (list Z) :=
  if (step =? 0)%Z then Raise (ValueError "range() arg 3 must not be zero")
  else Ok (List.map (fun k => (start + Z.of_nat k * step)%Z)
             (seq 0 (Z.to_nat (range_len start stop step)))).

(** Slice bounds are clamped to the sequence ([PySlice_AdjustIndices]). *)
Definition adjust_index (len i : Z) : Z :=
  if (i <? 0)%Z then Z.max 0 (i + len) else Z.min i len.

(** [l[i:j]]. *)
Definition py_slice {A} (l : list A) (i j : Z) : list A :=
  let n := Z.of_nat (length l) in
  let lo := adjust_index n i in
  let hi := adjust_index n j in
  firstn (Z.to_nat (hi - lo)) (skipn (Z.to_nat lo) l).

(** [re.sub(r'\s+', ' ', s)]: every maximal whitespace run becomes one
    space; [in_run] tells that the run was already replaced. *)
Fixpoint re_sub_ws_go (in_run : bool) (s : str) : str :=
  match s with
  | [] => []
  | c :: s' =>
      if py_isspace c then
        if in_run then re_sub_ws_go true s' else 32%N :: re_sub_ws_go true s'
      else c :: re_sub_ws_go false s'
  end.

Definition re_sub_ws (s : str) : str := re_sub_ws_go false s.

(** The interpreter's Unicode database gives the decimal value of the
    decimal digits outside ASCII (category Nd); the table is not part of the
    program and is a parameter of the development. *)
Class UnicodeDB : Type := { uni_decimal : N -> option N }.

(** The table with ASCII digits only. *)
Definition ascii_only : UnicodeDB := {| uni_decimal := fun _ => None |}.

(** A table with the Arabic-Indic digits U+0660..U+0669 as well. *)
Definition with_arabic_indic : UnicodeDB :=
  {| uni_decimal := fun c =>
       if ((1632 <=? c) && (c <=? 1641))%N then Some (c - 1632)%N else None |}.

(** [Py_UNICODE_TODECIMAL]: the decimal value of a digit, if it is one. *)
Definition py_todecimal `{UnicodeDB} (c : N) : option N :=
  if (c <? 128)%N then
    if ((48 <=? c) && (c <=? 57))%N then Some (c - 48)%N else None
  else uni_decimal c.

(** What [\d] matches in a [str] pattern. *)
Definition py_isdecimal `{UnicodeDB} (c : N) : bool :=
  match py_todecimal c with Some _ => true | None => false end.

(** The longest prefix of decimal digits. *)
Fixpoint span_digits `{UnicodeDB} (s : str) : str :=
  match s with
  | [] => []
  | c :: s' => if py_isdecimal c then c :: span_digits s' else []
  end.

(** [re.search(r'\d+', s)] followed by [.group()]: the leftmost match,
    greedy; [None] when there is no match. *)
Fixpoint re_search_digits `{UnicodeDB} (s : str) : option str :=
  match s with
  | [] => None
  | c :: s' =>
      if py_isdecimal c then Some (c :: span_digits s')
      else re_search_digits s'
  end.

(** Base-10 accumulation of [int]; a character that is no digit is an
    invalid literal. *)
Fixpoint int_digits `{UnicodeDB} (acc : Z) (s : str) : result Z :=
  match s with
  | [] => Ok acc
  | c :: s' =>
      match py_todecimal c with
      | Some d => int_digits (acc * 10 + Z.of_N d)%Z s'
      | None => Raise (ValueError "invalid literal for int() with base 10")
      end
  end.

(** The interpreter's bound on the number of digits that [int] converts:
    the default of [sys.int_max_str_digits], which the notebook does not
    change. *)
Definition int_max_str_digits : Z := 4300.

(** The [ValueError] for a longer literal: the start of its message (the
    interpreter appends the number of digits found and how to raise the
    limit). *)
Definition int_limit_msg : string :=
  "Exceeds the limit (4300 digits) for integer string conversion".

(** [int(s)] on the strings the program passes to it, the text of a match
    of [\d+].  The digits are counted first, and a literal with more than
    [int_max_str_digits] of them is refused before any conversion.  The
    sign, the surrounding whitespace and the underscores that [int]
    accepts elsewhere are not parsed here. *)
Definition py_int `{UnicodeDB} (s : str) : result Z :=
  match s with
  | [] => Raise (ValueError "invalid literal for int() with base 10")
  | _ :: _ =>
      if (int_max_str_digits <? Z.of_nat (length (span_digits s)))%Z
      then Raise (ValueError int_limit_msg)
      else int_digits 0 s
  end.

(** ** The collaborators *)

(** The embedding model ([BAAI/bge-small-en-v1.5] in the notebook). *)
Class Embedding : Type := { vector : Type; embed : str -> vector }.

(** [Schema]: a row of a table. *)
Record Schema `{Embedding} : Type := { text : str; vec : vector }.

(** A LanceDB table: its rows and the texts of its full-text index. *)
Record Table `{Embedding} : Type := {
  rows : list Schema;
  fts_index : option (list str)
}.

(** [LinearCombinationReranker(weight=...)]. *)
Record Reranker : Type := LinearCombinationReranker { weight : Q }.

(** The query that [tbl.search(...).rerank(...).limit(...)] builds. *)
Record Query : Type := {
  query_string : str;
  query_type : str;
  reranker : option Reranker;
  limit : option Z
}.

(** The two DSPy signatures of the notebook. *)
Inductive Signature : Type := GenerateAnswer | EvaluateAnswer.

(** A [dspy.Prediction]: its store of named fields. *)
Abbreviation Prediction := (gmap string value).

(** The calls that leave the program. *)
Inductive Event : Type :=
  | EvSearch (path name : str) (q : Query)
  | EvLM (sig : Signature) (inputs : Prediction).

(** The storage engine executes a query on a table ([to_list]). *)
Class SearchEngine `{Embedding} : Type :=
  { execute_query : Table -> Query -> result (list Schema) }.

(** A call of [dspy.ChainOfThought(sig)] on named inputs: the answer of the
    language model may depend on the calls made before. *)
Class LanguageModel : Type :=
  { lm_call : list Event -> Signature -> Prediction -> result Prediction }.

(** ** State: the databases on disk and the log of outgoing calls *)

(** [storage] holds the databases by directory; [realpath] gives the
    directory that a path names for [lancedb.connect] (the current
    directory and the links of the file system resolved), so that two
    spellings of one directory name one database. *)
Record World `{Embedding} : Type := {
  storage : gmap str (gmap str Table);
  realpath : str -> str;
  calls : list Event
}.

Definition M `{Embedding} (A : Type) : Type := World -> World * result A.

Definition ret `{Embedding} {A} (a : A) : M A := fun w => (w, Ok a).

Definition raise `{Embedding} {A} (e : exn) : M A := fun w => (w, Raise e).

Definition lift `{Embedding} {A} (r : result A) : M A := fun w => (w, r).

Definition bind `{Embedding} {A B} (m : M A) (k : A -> M B) : M B :=
  fun w =>
    match m w with
    | (w', Ok a) => k a w'
    | (w', Raise e) => (w', Raise e)
    end.

Notation "x <- c ;; k" := (bind c (fun x => k))
  (at level 100, c at next level, right associativity).

(** The world after one more outgoing call. *)
Definition logged `{Embedding} (ev : Event) (w : World) : World :=
  {| storage := storage w; realpath := realpath w;
     calls := calls w ++ [ev] |}.

(** [prediction.name] on a [dspy.Prediction]. *)
Definition getattr `{Embedding} (p : Prediction) (name : string) : M value :=
  match p !! name with
  | Some v => ret v
  | None => raise (AttributeError name)
  end.

(** ** The LanceDB connection *)

Module lancedb.

(** [lancedb.connect(path)] names the database in the directory of
    [path]; these are its tables, and a fresh directory holds none. *)
Definition get_db `{Embedding} (path : str) (w : World) : gmap str Table :=
  default ∅ (storage w !! realpath w path).

Definition put_table `{Embedding} (path name : str) (t : Table) (w : World)
  : World :=
  {| storage :=
       <[realpath w path := <[name := t]> (get_db path w)]> (storage w);
     realpath := realpath w;
     calls := calls w |}.

(** [db.table_names()]. *)
Definition table_names `{Embedding} (path : str) : M (gset str) :=
  fun w => (w, Ok (dom (get_db path w))).

(** [db.create_table(name, schema=Schema, mode="overwrite")]: an empty
    table, replacing one of that name. *)
Definition create_table `{Embedding} (path name : str) : M (str * str) :=
  fun w =>
    (put_table path name {| rows := []; fts_index := None |} w,
     Ok (path, name)).

(** [db.open_table(name)]. *)
Definition open_table `{Embedding} (path name : str) : M (str * str) :=
  fun w =>
    match get_db path w !! name with
    | Some _ => (w, Ok (path, name))
    | None => (w, Raise (TableNotFound name))
    end.

(** [tbl.add(data)]: the vector of each row is computed from its source
    field by the embedding model. *)
Definition add `{Embedding} (tbl : str * str) (data : list str) : M unit :=
  fun w =>
    match get_db tbl.1 w !! tbl.2 with
    | Some t =>
        (put_table tbl.1 tbl.2
           {| rows := rows t
                ++ List.map (fun s => {| text := s; vec := embed s |}) data;
              fts_index := fts_index t |} w,
         Ok tt)
    | None => (w, Raise (TableNotFound tbl.2))
    end.

(** [tbl.create_fts_index("text", replace=True)]. *)
Definition create_fts_index `{Embedding} (tbl : str * str) : M unit :=
  fun w =>
    match get_db tbl.1 w !! tbl.2 with
    | Some t =>
        (put_table tbl.1 tbl.2
           {| rows := rows t;
              fts_index := Some (List.map text (rows t)) |} w,
         Ok tt)
    | None => (w, Raise (TableNotFound tbl.2))
    end.

(** [tbl.search(query_string, query_type=...)]. *)
Definition search (query_string query_type : str) : Query :=
  {| query_string := query_string; query_type := query_type;
     reranker := None; limit := None |}.

(** [.rerank(reranker=...)]. *)
Definition rerank (r : Reranker) (q : Query) : Query :=
  {| query_string := query_string q; query_type := query_type q;
     reranker := Some r; limit := limit q |}.

(** [.limit(k)]. *)
Definition set_limit (k : Z) (q : Query) : Query :=
  {| query_string := query_string q; query_type := query_type q;
     reranker := reranker q; limit := Some k |}.

(** [.to_list()]: the storage engine runs the query. *)
Definition to_list `{SearchEngine} (tbl : str * str) (q : Query)
  : M (list Schema) :=
  fun w =>
    match get_db tbl.1 w !! tbl.2 with
    | Some t => (logged (EvSearch tbl.1 tbl.2 q) w, execute_query t q)
    | None => (w, Raise (TableNotFound tbl.2))
    end.

End lancedb.

(** ** Calling conventions *)

(** An argument of a call: left out, or passed; a passed [None] is
    Python's [None]. *)
Inductive arg (A : Type) : Type :=
  | Omitted
  | Passed (a : option A).
Arguments Omitted {A}.
Arguments Passed {A} a.

(** Binding of a parameter declared with the default [None]. *)
Definition or_none {A} (a : arg A) : option A :=
  match a with
  | Omitted => None
  | Passed v => v
  end.

(** A call of a [dspy.ChainOfThought] module. *)
Definition call_lm `{Embedding} `{LanguageModel}
  (sig : Signature) (inputs : Prediction) : M Prediction :=
  fun w => (logged (EvLM sig inputs) w, lm_call (calls w) sig inputs).

(** ** class Vectorstore *)

Module Vectorstore.

(** The attributes of an instance that the methods read. *)
Record t : Type := Build {
  context_information : str;
  db_path : str;
  tablename : str;
  chunk_size : Z
}.

(** Defaults of [__init__]: [tablename='context', chunk_size=50]. *)
Definition default_tablename : str := py "context".

Definition default_chunk_size : Z := 50.

(** [words = self.context_information.split()] and
    [[' '.join(words[i:i + self.chunk_size])
      for i in range(0, len(words), self.chunk_size)]]. *)
Definition split_text_into_chunks (self : t) : result (list str) :=
  let words := py_split (context_information self) in
  rbind (py_range 0 (Z.of_nat (length words)) (chunk_size self))
    (fun idx =>
       Ok (List.map
             (fun i => py_join (py " ")
                         (py_slice words i (i + chunk_size self)))
             idx)).

(** The table is created and filled only when its name is not among the
    database's tables; the full-text index is rebuilt in both cases. *)
Definition _persist_on_db `{Embedding} (self : t) : M unit :=
  names <- lancedb.table_names (db_path self) ;;
  tbl <- (if negb (bool_decide (tablename self ∈ names)) then
            tbl <- lancedb.create_table (db_path self) (tablename self) ;;
            chunks <- lift (split_text_into_chunks self) ;;
            _ <- lancedb.add tbl (List.map re_sub_ws chunks) ;;
            ret tbl
          else lancedb.open_table (db_path self) (tablename self)) ;;
  lancedb.create_fts_index tbl.

(** [__init__(self, context_information=None, db_path=None,
    tablename='context', chunk_size=50)]. *)
Definition __init__ `{Embedding} (context_information db_path : arg str)
  (tablename : str) (chunk_size : Z) : M t :=
  match or_none context_information, or_none db_path with
  | Some c, Some p =>
      let self := Build c p tablename chunk_size in
      _ <- _persist_on_db self ;;
      ret self
  | _, _ =>
      raise (ValueError "Both context_information and db_path must be provided")
  end.

(** [search_table(self, query_string, query_type='hybrid', top_k=3)]. *)
Definition search_table `{SearchEngine} (self : t)
  (query_string query_type : str) (top_k : Z) : M str :=
  let reranker := LinearCombinationReranker (7 # 10) in
  tbl <- lancedb.open_table (db_path self) (tablename self) ;;
  rs <- lancedb.to_list tbl
          (lancedb.set_limit top_k
             (lancedb.rerank reranker
                (lancedb.search query_string query_type))) ;;
  ret (py_join (py "- context block: ") (List.map text rs)).

End Vectorstore.

(** ** class RAG *)

Module RAG.

Record t : Type := Build { vectorstore : Vectorstore.t }.

(** [__init__(self, context_information, db_path)]: both parameters are
    required, so a call that leaves one out does not reach the body. *)
Definition __init__ `{Embedding} (context_information db_path : arg str)
  : M t :=
  match context_information, db_path with
  | Passed c, Passed p =>
      match c, p with
      | Some _, Some _ =>
          vs <- Vectorstore.__init__ (Passed c) (Passed p)
                  Vectorstore.default_tablename
                  Vectorstore.default_chunk_size ;;
          ret (Build vs)
      | _, _ =>
          raise (ValueError
                   "Both context_information and db_path must be provided")
      end
  | _, _ => raise (TypeError "__init__() missing required positional argument")
  end.

Definition forward `{SearchEngine} `{LanguageModel} (self : t) (query : str)
  : M Prediction :=
  relevant_contexts <-
    Vectorstore.search_table (vectorstore self) query (py "hybrid") 3 ;;
  prediction <-
    call_lm GenerateAnswer
      {[ "query" := PyStr query;
         "context_chunks" := PyStr relevant_contexts ]} ;;
  answer <- getattr prediction "answer" ;;
  answer_rationale <- getattr prediction "answer_rationale" ;;
  ret {[ "query" := PyStr query;
         "context_chunks" := PyStr relevant_contexts;
         "answer" := answer;
         "answer_rationale" := answer_rationale ]}.

End RAG.

(** ** class EvaluatorRAG *)

Module EvaluatorRAG.

(** [if isinstance(metric, str)]: search [\d+]; on a match return
    [int(match.group())]; in every other case return [metric]. *)
Definition normalize_metric `{UnicodeDB} (metric : value) : result value :=
  match metric with
  | PyStr s =>
      match re_search_digits s with
      | Some run => rbind (py_int run) (fun n => Ok (PyInt n))
      | None => Ok metric
      end
  | _ => Ok metric
  end.

Definition forward `{Embedding} `{LanguageModel} `{UnicodeDB}
  (query context_chunks answer answer_rationale : value) : M Prediction :=
  evaluation <-
    call_lm EvaluateAnswer
      {[ "query" := query;
         "context_chunks" := context_chunks;
         "answer" := answer;
         "answer_rationale" := answer_rationale ]} ;;
  raw <- getattr evaluation "accuracy_metric" ;;
  accuracy_metric <- lift (normalize_metric raw) ;;
  rationale_metric <- getattr evaluation "rationale_metric" ;;
  ret {[ "query" := query;
         "context_chunks" := context_chunks;
         "answer" := answer;
         "answer_rationale" := answer_rationale;
         "accuracy_metric" := accuracy_metric;
         "rationale_metric" := rationale_metric ]}.

End EvaluatorRAG.

(** ** class RAG_Assitant *)

Module RAG_Assitant.

(** [self.rag]; [self.evaluator_rag] has no attribute of its own. *)
Record t : Type := Build { rag : RAG.t }.

Definition __init__ `{Embedding} (context_information db_path : arg str)
  : M t :=
  r <- RAG.__init__ context_information db_path ;;
  ret (Build r).

(** The result is the dictionary of the six fields of the evaluation. *)
Definition process_question `{SearchEngine} `{LanguageModel} `{UnicodeDB}
  (self : t) (query : str) : M Prediction :=
  result <- RAG.forward (rag self) query ;;
  context_chunks <- getattr result "context_chunks" ;;
  answer <- getattr result "answer" ;;
  answer_rationale <- getattr result "answer_rationale" ;;
  evaluation <-
    EvaluatorRAG.forward (PyStr query) context_chunks answer
      answer_rationale ;;
  e_query <- getattr evaluation "query" ;;
  e_context_chunks <- getattr evaluation "context_chunks" ;;
  e_answer <- getattr evaluation "answer" ;;
  e_answer_rationale <- getattr evaluation "answer_rationale" ;;
  e_accuracy_metric <- getattr evaluation "accuracy_metric" ;;
  e_rationale_metric <- getattr evaluation "rationale_metric" ;;
  ret {[ "query" := e_query;
         "context_chunks" := e_context_chunks;
         "answer" := e_answer;
         "answer_rationale" := e_answer_rationale;
         "accuracy_metric" := e_accuracy_metric;
         "rationale_metric" := e_rationale_metric ]}.

End RAG_Assitant.

(** ** Vocabulary of the statements *)

(** Number of words of a text, as [str.split] counts them. *)
Definition word_count (s : str) : nat := length (py_split s).

(** A word: not empty, no whitespace inside. *)
Definition good_word (w : str) : Prop :=
  w <> [] /\ Forall (fun c => py_isspace c = false) w.

(** The [k]-th run of [c] consecutive items of [l]. *)
Definition group {A} (c : nat) (l : list A) (k : nat) : list A :=
  firstn c (skipn (k * c) l).

(** The integer that a sequence of decimal digits denotes in base 10. *)
Fixpoint digits_value (ds : list N) : Z :=
  match ds with
  | [] => 0
  | d :: ds' => Z.of_N d * 10 ^ Z.of_nat (length ds') + digits_value ds'
  end.

Definition is_str (m : value) : bool :=
  match m with
  | PyStr _ => true
  | _ => false
  end.

Definition is_numeric (m : value) : bool :=
  match m with
  | PyBool _ | PyInt _ | PyFloat _ => true
  | _ => false
  end.

(** The exceptions Python raises for an argument that is missing or has
    an unusable value. *)
Definition invalid_argument (e : exn) : bool :=
  match e with
  | ValueError _ | TypeError _ => true
  | _ => false
  end.

Definition table_at `{Embedding} (path name : str) (w : World)
  : option Table :=
  lancedb.get_db path w !! name.

Definition table_rows `{Embedding} (path name : str) (w : World)
  : option (list Schema) :=
  rows <$> table_at path name w.

(** A table after its full-text index was rebuilt. *)
Definition indexed `{Embedding} (t : Table) : Table :=
  {| rows := rows t; fts_index := Some (List.map text (rows t)) |}.

(** The table that a first ingestion of [chunks] fills. *)
Definition ingest `{Embedding} (chunks : list str) : Table :=
  {| rows := List.map (fun s => {| text := s; vec := embed s |})
               (List.map re_sub_ws chunks);
     fts_index := None |}.

(** The query that [search_table] sends to the storage engine. *)
Definition hybrid_query (q qt : str) (k : Z) : Query :=
  {| query_string := q; query_type := qt;
     reranker := Some (LinearCombinationReranker (7 # 10));
     limit := Some k |}.

Definition separator : str := py "- context block: ".

Definition generate_inputs (query relevant_contexts : str) : Prediction :=
  {[ "query" := PyStr query;
     "context_chunks" := PyStr relevant_contexts ]}.

Definition answer_record (query relevant_contexts : str)
  (answer answer_rationale : value) : Prediction :=
  {[ "query" := PyStr query;
     "context_chunks" := PyStr relevant_contexts;
     "answer" := answer;
     "answer_rationale" := answer_rationale ]}.

Definition evaluate_inputs
  (query context_chunks answer answer_rationale : value) : Prediction :=
  {[ "query" := query;
     "context_chunks" := context_chunks;
     "answer" := answer;
     "answer_rationale" := answer_rationale ]}.

Definition evaluation_record
  (query context_chunks answer answer_rationale
   accuracy_metric rationale_metric : value) : Prediction :=
  {[ "query" := query;
     "context_chunks" := context_chunks;
     "answer" := answer;
     "answer_rationale" := answer_rationale;
     "accuracy_metric" := accuracy_metric;
     "rationale_metric" := rationale_metric ]}.

(** What the generation stage yields from the reply of the model. *)
Definition generation_outcome `{LanguageModel} (history : list Event)
  (query relevant_contexts : str) : result (value * value) :=
  rbind (lm_call history GenerateAnswer
           (generate_inputs query relevant_contexts))
    (fun prediction =>
       match prediction !! "answer" with
       | None => Raise (AttributeError "answer")
       | Some answer =>
           match prediction !! "answer_rationale" with
           | None => Raise (AttributeError "answer_rationale")
           | Some answer_rationale => Ok (answer, answer_rationale)
           end
       end).

(** What the evaluation stage yields from the reply of the model. *)
Definition evaluation_outcome `{LanguageModel} `{UnicodeDB}
  (history : list Event)
  (query context_chunks answer answer_rationale : value)
  : result (value * value) :=
  rbind (lm_call history EvaluateAnswer
           (evaluate_inputs query context_chunks answer answer_rationale))
    (fun evaluation =>
       match evaluation !! "accuracy_metric" with
       | None => Raise (AttributeError "accuracy_metric")
       | Some raw =>
           rbind (EvaluatorRAG.normalize_metric raw)
             (fun accuracy_metric =>
                match evaluation !! "rationale_metric" with
                | None => Raise (AttributeError "rationale_metric")
                | Some rationale_metric =>
                    Ok (accuracy_metric, rationale_metric)
                end)
       end).

(** ** Concrete collaborators and data for the examples *)

Definition demo_embedding : Embedding :=
  {| vector := nat; embed := fun s => length s |}.

(** An engine that returns the first [limit] rows of the table. *)
Definition demo_engine : @SearchEngine demo_embedding :=
  {| execute_query := fun t q =>
       Ok (match limit q with
           | Some k => firstn (Z.to_nat k) (rows t)
           | None => rows t
           end) |}.


(** An engine that is unreachable. *)
Definition down_engine : @SearchEngine demo_embedding :=
  {| execute_query := fun _ _ => Raise (CollaboratorError 503) |}.

(** A model that answers, and grades with a sentence. *)
Definition demo_lm : LanguageModel :=
  {| lm_call := fun _ sig _ =>
       match sig with
       | GenerateAnswer =>
           Ok {[ "answer" := PyStr (py "Yes, it is open on Tuesday.");
                 "answer_rationale" := PyStr (py "Monday to Friday") ]}
       | EvaluateAnswer =>
           Ok {[ "accuracy_metric" := PyStr (py "Score: 9 out of 10");
                 "rationale_metric" := PyStr (py "supported") ]}
       end |}.

(** A model that answers but fails when asked to grade. *)
Definition no_grade_lm : LanguageModel :=
  {| lm_call := fun _ sig _ =>
       match sig with
       | GenerateAnswer =>
           Ok {[ "answer" := PyStr (py "Yes, it is open on Tuesday.");
                 "answer_rationale" := PyStr (py "Monday to Friday") ]}
       | EvaluateAnswer => Raise (CollaboratorError 429)
       end |}.

(** A model whose answer lacks the [answer] field. *)
Definition malformed_lm : LanguageModel :=
  {| lm_call := fun _ sig _ =>
       match sig with
       | GenerateAnswer =>
           Ok {[ "answer_rationale" := PyStr (py "Monday to Friday") ]}
       | EvaluateAnswer =>
           Ok {[ "accuracy_metric" := PyStr (py "10");
                 "rationale_metric" := PyStr (py "supported") ]}
       end |}.

Definition hours : str := py "Monday to Friday 9am-6pm, closed Sunday.".

Definition hours_store : Vectorstore.t :=
  Vectorstore.Build hours (py "./db_lancedb") (py "context") 50.

Definition small_store : Vectorstore.t :=
  Vectorstore.Build hours (py "./db_lancedb") (py "context") 3.

Definition zero_size_store : Vectorstore.t :=
  Vectorstore.Build hours (py "./db_lancedb") (py "context") 0.

Definition negative_size_store : Vectorstore.t :=
  Vectorstore.Build hours (py "./db_lancedb") (py "context") (-1).

(** A file system whose current directory holds the databases: [./d] and
    [d] are one directory. *)
Definition strip_dot_slash (path : str) : str :=
  match path with
  | 46%N :: 47%N :: rest => rest
  | _ => path
  end.

Definition empty_world : @World demo_embedding :=
  {| storage := ∅; realpath := strip_dot_slash; calls := [] |}.

(** The world after [Vectorstore(hours, './db_lancedb')] was built. *)
Definition hours_world : @World demo_embedding :=
  (@Vectorstore._persist_on_db demo_embedding hours_store empty_world).1.

Definition hours_row : @Schema demo_embedding :=
  {| text := hours; vec := @embed demo_embedding hours |}.

Definition hours_assistant : RAG_Assitant.t :=
  RAG_Assitant.Build (RAG.Build hours_store).

Definition tuesday : str := py "Is it open on Tuesday?".




(** What the evaluator returns for a short answer graded by [demo_lm]. *)
Definition tuesday_evaluation : Prediction :=
  evaluation_record (PyStr tuesday) (PyStr hours) (PyStr (py "Yes"))
    PyNone (PyInt 9) (PyStr (py "supported")).

(** More data for the examples. *)

Definition word_store : Vectorstore.t :=
  Vectorstore.Build hours (py "./db_lancedb") (py "context") 1.

Definition notes_store : Vectorstore.t :=
  Vectorstore.Build hours (py "./db_lancedb") (py "notes") 50.

Definition hours_chunks : list str :=
  [py "Monday to Friday"; py "9am-6pm, closed Sunday."].

Definition tuesday_result : Prediction :=
  evaluation_record (PyStr tuesday) (PyStr hours)
    (PyStr (py "Yes, it is open on Tuesday."))
    (PyStr (py "Monday to Friday")) (PyInt 9) (PyStr (py "supported")).

Definition tuesday_answer : Prediction :=
  answer_record tuesday hours (PyStr (py "Yes, it is open on Tuesday."))
    (PyStr (py "Monday to Friday")).

(** The world after one question, and after the same question again. *)
Definition tuesday_world_1 : @World demo_embedding :=
  (@RAG_Assitant.process_question demo_embedding demo_engine demo_lm
     ascii_only hours_assistant tuesday hours_world).1.

Definition tuesday_world_2 : @World demo_embedding :=
  (@RAG_Assitant.process_question demo_embedding demo_engine demo_lm
     ascii_only hours_assistant tuesday tuesday_world_1).1.

(** * Properties *)

(** ** The chunker *)

Section SplitJoin.

Lemma split_ws_good s : forall cur,
  Forall (fun c => py_isspace c = false) cur ->
  Forall good_word (split_ws cur s).
Proof.
  induction s as [|c s IH]; intros cur Hcur; simpl.
  - destruct cur; constructor;
      [split; [discriminate | assumption] | constructor].
  - destruct (py_isspace c) eqn:Hc.
    + destruct cur as [|x cur'].
      * apply IH. constructor.
      * constructor; [split; [discriminate | assumption] |].
        apply IH. constructor.
    + apply IH. apply Forall_app. split; [assumption |].
      repeat constructor. exact Hc.
Qed.

Lemma py_split_good s : Forall good_word (py_split s).
Proof. apply split_ws_good. constructor. Qed.

(** Scanning a word only extends the word in progress. *)
Lemma split_ws_word w : forall cur s,
  Forall (fun c => py_isspace c = false) w ->
  split_ws cur (w ++ s) = split_ws (cur ++ w) s.
Proof.
  induction w as [|c w IH]; intros cur s Hw; simpl.
  - now rewrite app_nil_r.
  - inversion Hw as [|? ? Hc Hw']; subst. rewrite Hc.
    rewrite IH by assumption. now rewrite <- app_assoc.
Qed.

(** Splitting undoes joining with one space. *)
Lemma py_split_join ws :
  Forall good_word ws -> py_split (py_join (py " ") ws) = ws.
Proof.
  induction ws as [|w rest IH]; intros Hws; [reflexivity |].
  inversion Hws as [|? ? [Hne Hw] Hrest]; subst.
  unfold py_split in *. simpl.
  destruct rest as [|r rest'].
  - rewrite <- (app_nil_r w) at 1. rewrite split_ws_word by assumption.
    simpl. destruct w; [contradiction | reflexivity].
  - rewrite split_ws_word by assumption. simpl app.
    change (py " " ++ py_join (py " ") (r :: rest'))
      with (32%N :: py_join (py " ") (r :: rest')).
    simpl split_ws at 1.
    destruct w; [contradiction |]. f_equal. apply IH. assumption.
Qed.

(** [re.sub(r'\s+', ' ', s)] keeps the words of [s]. *)
Lemma split_ws_re_sub s : forall cur b,
  (b = true -> cur = []) ->
  split_ws cur (re_sub_ws_go b s) = split_ws cur s.
Proof.
  induction s as [|c s IH]; intros cur b Hb; [reflexivity |].
  simpl. destruct (py_isspace c) eqn:Hc.
  - destruct b.
    + rewrite (Hb eq_refl). now apply IH.
    + simpl. change (py_isspace 32) with true. cbv iota.
      destruct cur; (rewrite IH by reflexivity); reflexivity.
  - simpl. rewrite Hc. apply IH. discriminate.
Qed.

Lemma py_split_re_sub s : py_split (re_sub_ws s) = py_split s.
Proof. apply split_ws_re_sub. discriminate. Qed.

Lemma re_sub_ws_go_word w : forall b s,
  w <> [] ->
  Forall (fun c => py_isspace c = false) w ->
  re_sub_ws_go b (w ++ s) = w ++ re_sub_ws_go false s.
Proof.
  induction w as [|c w IH]; intros b s Hne Hw; [contradiction |].
  inversion Hw as [|? ? Hc Hw']; subst. simpl. rewrite Hc. f_equal.
  destruct w as [|c' w']; [reflexivity |].
  apply IH; [discriminate | assumption].
Qed.

(** A text of words separated by single spaces is already normalized. *)
Lemma re_sub_ws_go_join ws : forall b,
  Forall good_word ws ->
  re_sub_ws_go b (py_join (py " ") ws) = py_join (py " ") ws.
Proof.
  induction ws as [|w rest IH]; intros b Hws; [reflexivity |].
  inversion Hws as [|? ? [Hne Hw] Hrest]; subst.
  destruct rest as [|r rest'].
  - simpl. rewrite <- (app_nil_r w) at 1.
    rewrite re_sub_ws_go_word by assumption. simpl. now rewrite app_nil_r.
  - change (py_join (py " ") (w :: r :: rest'))
      with (w ++ 32%N :: py_join (py " ") (r :: rest')).
    rewrite re_sub_ws_go_word by assumption. f_equal.
    cbn [re_sub_ws_go]. change (py_isspace 32) with true. cbv iota.
    f_equal. now apply IH.
Qed.

Lemma py_join_app sep (a b : list str) :
  a <> [] -> b <> [] ->
  py_join sep (a ++ b) = py_join sep a ++ sep ++ py_join sep b.
Proof.
  induction a as [|x a IH]; intros Ha Hb; [contradiction |].
  destruct a as [|y a'].
  - simpl. destruct b; [contradiction | reflexivity].
  - change (py_join sep ((x :: y :: a') ++ b))
      with (x ++ sep ++ py_join sep ((y :: a') ++ b)).
    rewrite IH by (discriminate || assumption).
    change (py_join sep (x :: y :: a'))
      with (x ++ sep ++ py_join sep (y :: a')).
    now rewrite <- !app_assoc.
Qed.

(** Joining the joined groups is joining all the words. *)
Lemma py_join_concat sep (gs : list (list str)) :
  Forall (fun g => g <> []) gs ->
  py_join sep (List.map (py_join sep) gs) = py_join sep (concat gs).
Proof.
  induction gs as [|g gs IH]; intros Hgs; [reflexivity |].
  inversion Hgs as [|? ? Hg Hgs']; subst.
  destruct gs as [|g' gs'].
  - simpl. now rewrite app_nil_r.
  - change (py_join sep (List.map (py_join sep) (g :: g' :: gs')))
      with (py_join sep g ++ sep
              ++ py_join sep (List.map (py_join sep) (g' :: gs'))).
    rewrite IH by assumption.
    change (concat (g :: g' :: gs')) with (g ++ concat (g' :: gs')).
    rewrite py_join_app; [reflexivity | assumption |].
    inversion Hgs' as [|? ? Hg' _]; subst. simpl.
    destruct g'; [contradiction | discriminate].
Qed.

End SplitJoin.

Section Groups.
Context {A : Type}.
Implicit Types (l : list A) (c k m : nat).

Lemma firstn_plus l : forall a b,
  firstn (a + b) l = firstn a l ++ firstn b (skipn a l).
Proof.
  induction l as [|x l IH]; intros a b.
  - now rewrite !firstn_nil, skipn_nil, firstn_nil.
  - destruct a; simpl; [reflexivity |]. now rewrite IH.
Qed.

Lemma concat_groups c l m :
  concat (List.map (group c l) (seq 0 m)) = firstn (m * c) l.
Proof.
  induction m as [|m IH]; [reflexivity |].
  rewrite seq_S, List.map_app, concat_app, IH. simpl.
  rewrite app_nil_r. unfold group.
  replace (c + m * c) with (m * c + c) by lia.
  now rewrite firstn_plus.
Qed.

Lemma group_length c l k :
  length (group c l k) = Nat.min c (length l - k * c).
Proof. unfold group. now rewrite length_firstn, length_skipn. Qed.

(** The slice [l[a : a + c]] of the comprehension. *)
Lemma py_slice_group l (a : nat) (c : Z) :
  (0 < c)%Z ->
  py_slice l (Z.of_nat a) (Z.of_nat a + c)
  = firstn (Z.to_nat c) (skipn a l).
Proof.
  intros Hc. unfold py_slice, adjust_index.
  destruct (Z.ltb_spec (Z.of_nat a) 0); [lia |].
  destruct (Z.ltb_spec (Z.of_nat a + c) 0); [lia |].
  destruct (le_lt_dec (length l) a) as [Hge | Hlt].
  - rewrite Z.min_r by lia. rewrite Z.min_r by lia.
    rewrite Nat2Z.id. rewrite !skipn_all2 by lia.
    now rewrite !firstn_nil.
  - rewrite (Z.min_l (Z.of_nat a)) by lia. rewrite Nat2Z.id.
    destruct (Z.le_gt_cases (Z.of_nat a + c) (Z.of_nat (length l))).
    + rewrite Z.min_l by lia. f_equal. lia.
    + rewrite Z.min_r by lia.
      rewrite !firstn_all2; [reflexivity | |]; rewrite length_skipn; lia.
Qed.

End Groups.

Lemma range_len_bounds (n c : Z) :
  (0 < n)%Z -> (0 < c)%Z ->
  ((range_len 0 n c - 1) * c < n <= range_len 0 n c * c)%Z.
Proof.
  intros Hn Hc. unfold range_len.
  destruct (Z.ltb_spec 0 c); [| lia].
  destruct (Z.ltb_spec 0 n); [| lia].
  replace (n - 0 - 1)%Z with (n - 1)%Z by lia.
  pose proof (Z.div_mod (n - 1) c ltac:(lia)) as Hdm.
  pose proof (Z.mod_pos_bound (n - 1) c Hc) as Hb.
  nia.
Qed.

Lemma range_len_zero (c : Z) : (0 < c)%Z -> range_len 0 0 c = 0%Z.
Proof.
  intros Hc. unfold range_len.
  destruct (Z.ltb_spec 0 c); [reflexivity | lia].
Qed.

(** For a positive size the comprehension lists the groups of words. *)
Lemma chunks_are_groups (self : Vectorstore.t) :
  (0 < Vectorstore.chunk_size self)%Z ->
  let ws := py_split (Vectorstore.context_information self) in
  Vectorstore.split_text_into_chunks self
  = Ok (List.map
          (fun k => py_join (py " ")
                      (group (Z.to_nat (Vectorstore.chunk_size self)) ws k))
          (seq 0 (Z.to_nat (range_len 0 (Z.of_nat (length ws))
                              (Vectorstore.chunk_size self))))).
Proof.
  intros Hc ws. unfold Vectorstore.split_text_into_chunks, py_range.
  fold ws. destruct (Z.eqb_spec (Vectorstore.chunk_size self) 0); [lia |].
  simpl rbind. f_equal. rewrite List.map_map. apply List.map_ext.
  intros k. f_equal. unfold group.
  replace (0 + Z.of_nat k * Vectorstore.chunk_size self)%Z
    with (Z.of_nat (k * Z.to_nat (Vectorstore.chunk_size self))) by lia.
  now apply py_slice_group.
Qed.

Section Counting.
Variables (ws : list str) (C m : nat).
Hypothesis HC : 0 < C.
Hypothesis Hgood : Forall good_word ws.
Hypothesis Hm0 : length ws = 0 -> m = 0.
Hypothesis Hm : 0 < length ws -> (m - 1) * C < length ws <= m * C.

Lemma groups_concat : concat (List.map (group C ws) (seq 0 m)) = ws.
Proof using HC Hm0 Hm.
  rewrite concat_groups. apply firstn_all2.
  destruct (length ws) eqn:E; [lia |]. lia.
Qed.

Lemma group_size k : k < m -> 1 <= length (group C ws k) <= C.
Proof using HC Hm0 Hm.
  intros Hk. rewrite group_length.
  assert (0 < length ws) as Hn
    by (destruct (length ws); [specialize (Hm0 eq_refl) |]; lia).
  specialize (Hm Hn). assert (k * C <= (m - 1) * C) by nia. lia.
Qed.


Lemma group_good k : Forall good_word (group C ws k).
Proof using Hgood.
  unfold group. apply Forall_take, Forall_drop, Hgood.
Qed.


End Counting.

(** The chunks are unchanged by the whitespace normalization applied
    before they are stored. *)
Lemma split_chunks_normalized (self : Vectorstore.t) chunks :
  (0 < Vectorstore.chunk_size self)%Z ->
  Vectorstore.split_text_into_chunks self = Ok chunks ->
  List.map re_sub_ws chunks = chunks.
Proof.
  intros Hc. rewrite (chunks_are_groups self Hc). intros [= <-].
  rewrite List.map_map. apply List.map_ext. intros k.
  apply re_sub_ws_go_join, group_good, py_split_good.
Qed.



Example split_hours_by_three :
  Vectorstore.split_text_into_chunks small_store
  = Ok [py "Monday to Friday"; py "9am-6pm, closed Sunday."].
Proof. reflexivity. Qed.

Example split_irregular_whitespace :
  Vectorstore.split_text_into_chunks
    (Vectorstore.Build [32; 97; 9; 10; 98; 98; 160; 99; 32; 32; 100; 13]%N
       (py "db") (py "context") 3)
  = Ok [py "a bb c"; py "d"].
Proof. reflexivity. Qed.

Example split_empty_text :
  Vectorstore.split_text_into_chunks
    (Vectorstore.Build [] (py "db") (py "context") 50)
  = Ok [].
Proof. reflexivity. Qed.

(** C3, as the claim states it, fails: with a negative size the split
    returns (an empty list) and raises nothing. *)
Lemma split_text_into_chunks_negative_returns :
  (Vectorstore.chunk_size negative_size_store <= 0)%Z /\
  ~ (exists e,
       Vectorstore.split_text_into_chunks negative_size_store = Raise e).
Proof.
  split; [simpl; lia |]. intros [e He]. vm_compute in He. discriminate.
Qed.

(** C3, amended: with size zero the split raises [ValueError] for every
    text; with a negative size it returns the empty list for every text. *)
Theorem split_text_into_chunks_nonpositive (self : Vectorstore.t) :
  (Vectorstore.chunk_size self <= 0)%Z ->
  Vectorstore.split_text_into_chunks self
  = if (Vectorstore.chunk_size self =? 0)%Z
    then Raise (ValueError "range() arg 3 must not be zero")
    else Ok [].
Proof.
  intros Hc. unfold Vectorstore.split_text_into_chunks, py_range.
  destruct (Z.eqb_spec (Vectorstore.chunk_size self) 0) as [E | E];
    [reflexivity |].
  unfold range_len.
  destruct (Z.ltb_spec 0 (Vectorstore.chunk_size self)); [lia |].
  destruct (Z.ltb_spec
              (Z.of_nat
                 (length (py_split (Vectorstore.context_information self))))
              0); [lia |].
  reflexivity.
Qed.

Lemma split_text_into_chunks_nonpositive_witness :
  Vectorstore.split_text_into_chunks zero_size_store
  = Raise (ValueError "range() arg 3 must not be zero") /\
  Vectorstore.split_text_into_chunks negative_size_store = Ok [].
Proof.
  split.
  - apply (split_text_into_chunks_nonpositive zero_size_store). simpl. lia.
  - apply (split_text_into_chunks_nonpositive negative_size_store).
    simpl. lia.
Defined.

(** ** The evaluator's normalization *)

Section Digits.
Context `{UnicodeDB}.

Lemma isdecimal_true c :
  py_isdecimal c = true <-> exists d, py_todecimal c = Some d.
Proof.
  unfold py_isdecimal. destruct (py_todecimal c) as [d|]; split.
  - eauto.
  - reflexivity.
  - discriminate.
  - intros [d Hd]. discriminate.
Qed.

Lemma isdecimal_false c : py_isdecimal c = false <-> py_todecimal c = None.
Proof.
  unfold py_isdecimal. destruct (py_todecimal c); split; congruence.
Qed.

(** The greedy scan stops exactly at the end of the run. *)
Lemma span_digits_run run post ds :
  List.map py_todecimal run = List.map Some ds ->
  (forall c post', post = c :: post' -> py_todecimal c = None) ->
  span_digits (run ++ post) = run.
Proof.
  revert ds. induction run as [|c run IH]; intros ds Hds Hpost.
  - destruct post as [|c post']; [reflexivity |]. simpl.
    specialize (Hpost c post' eq_refl). apply isdecimal_false in Hpost.
    now rewrite Hpost.
  - destruct ds as [|d ds]; [discriminate |]. simpl in Hds.
    injection Hds as Hc Hds. simpl.
    assert (py_isdecimal c = true) as -> by (apply isdecimal_true; eauto).
    f_equal. eapply IH; eauto.
Qed.

(** The search returns the leftmost maximal run of digits. *)
Lemma re_search_digits_run pre run post ds :
  Forall (fun c => py_todecimal c = None) pre ->
  run <> [] ->
  List.map py_todecimal run = List.map Some ds ->
  (forall c post', post = c :: post' -> py_todecimal c = None) ->
  re_search_digits (pre ++ run ++ post) = Some run.
Proof.
  intros Hpre Hne Hds Hpost. induction Hpre as [|c pre Hc _ IH].
  - destruct run as [|c run]; [contradiction |].
    destruct ds as [|d ds]; [discriminate |]. simpl in Hds.
    injection Hds as Hc Hds. simpl.
    assert (py_isdecimal c = true) as -> by (apply isdecimal_true; eauto).
    f_equal. f_equal. eapply span_digits_run; eauto.
  - simpl. apply isdecimal_false in Hc. now rewrite Hc.
Qed.

Lemma re_search_digits_none s :
  re_search_digits s = None <-> Forall (fun c => py_todecimal c = None) s.
Proof.
  induction s as [|c s IH]; simpl.
  - split; [constructor | reflexivity].
  - destruct (py_isdecimal c) eqn:Hc.
    + split; [discriminate |]. intros Hs.
      inversion Hs as [|? ? Hn _]; subst.
      apply isdecimal_false in Hn. congruence.
    + rewrite IH. apply isdecimal_false in Hc. split.
      * intros Hs. now constructor.
      * intros Hs. now inversion Hs.
Qed.

Lemma span_digits_decimal s :
  exists ds, List.map py_todecimal (span_digits s) = List.map Some ds.
Proof.
  induction s as [|c s [ds IH]]; [exists []; reflexivity |].
  simpl. destruct (py_isdecimal c) eqn:Hc.
  - apply isdecimal_true in Hc as [d Hd]. exists (d :: ds). simpl.
    now rewrite Hd, IH.
  - exists []. reflexivity.
Qed.

(** A match is never empty and holds digits only. *)
Lemma re_search_digits_some s run :
  re_search_digits s = Some run ->
  run <> [] /\ exists ds, List.map py_todecimal run = List.map Some ds.
Proof.
  induction s as [|c s IH]; simpl; [discriminate |].
  destruct (py_isdecimal c) eqn:Hc; [| exact IH].
  intros [= <-]. split; [discriminate |].
  apply isdecimal_true in Hc as [d Hd].
  destruct (span_digits_decimal s) as [ds Hds].
  exists (d :: ds). simpl. now rewrite Hd, Hds.
Qed.

Lemma int_digits_value run : forall ds acc,
  List.map py_todecimal run = List.map Some ds ->
  int_digits acc run
  = Ok (acc * 10 ^ Z.of_nat (length ds) + digits_value ds)%Z.
Proof.
  induction run as [|c run IH]; intros ds acc Hds.
  - destruct ds; [| discriminate]. simpl. f_equal. lia.
  - destruct ds as [|d ds]; [discriminate |]. simpl in Hds.
    injection Hds as Hc Hds. cbn [int_digits]. rewrite Hc.
    rewrite (IH ds) by assumption. f_equal.
    cbn [length digits_value]. rewrite Nat2Z.inj_succ.
    rewrite Z.pow_succ_r by lia. lia.
Qed.

(** A run of digits is its own longest prefix of digits. *)
Lemma span_digits_all run ds :
  List.map py_todecimal run = List.map Some ds ->
  span_digits run = run.
Proof.
  intros Hds. rewrite <- (app_nil_r run) at 1.
  apply (span_digits_run run [] ds Hds). discriminate.
Qed.

(** [int] gives the value of a run of digits within the limit. *)
Lemma py_int_value run ds :
  run <> [] ->
  List.map py_todecimal run = List.map Some ds ->
  (Z.of_nat (length run) <= int_max_str_digits)%Z ->
  py_int run = Ok (digits_value ds).
Proof.
  intros Hne Hds Hlen. destruct run as [|c run]; [contradiction |].
  unfold py_int. rewrite (span_digits_all _ ds Hds).
  destruct (Z.ltb_spec int_max_str_digits (Z.of_nat (length (c :: run))));
    [lia |].
  now rewrite (int_digits_value _ ds) by assumption.
Qed.

(** [int] refuses a run of digits beyond the limit. *)
Lemma py_int_limit run ds :
  List.map py_todecimal run = List.map Some ds ->
  (int_max_str_digits < Z.of_nat (length run))%Z ->
  py_int run = Raise (ValueError int_limit_msg).
Proof.
  intros Hds Hlen. destruct run as [|c run].
  - simpl in Hlen. unfold int_max_str_digits in Hlen. lia.
  - unfold py_int. rewrite (span_digits_all _ ds Hds).
    destruct (Z.ltb_spec int_max_str_digits (Z.of_nat (length (c :: run))));
      [reflexivity | lia].
Qed.

(** What [normalize_metric] does on a [str]: by its first run of digits. *)
Lemma normalize_metric_str (s : str) :
  match re_search_digits s with
  | None => EvaluatorRAG.normalize_metric (PyStr s) = Ok (PyStr s)
  | Some run =>
      exists ds,
        List.map py_todecimal run = List.map Some ds /\
        run <> [] /\
        EvaluatorRAG.normalize_metric (PyStr s)
        = if (int_max_str_digits <? Z.of_nat (length run))%Z
          then Raise (ValueError int_limit_msg)
          else Ok (PyInt (digits_value ds))
  end.
Proof.
  unfold EvaluatorRAG.normalize_metric.
  destruct (re_search_digits s) as [run|] eqn:Hs; [| reflexivity].
  apply re_search_digits_some in Hs as [Hne [ds Hds]].
  exists ds. split; [exact Hds |]. split; [exact Hne |].
  destruct (Z.ltb_spec int_max_str_digits (Z.of_nat (length run))).
  - now rewrite (py_int_limit run ds).
  - now rewrite (py_int_value run ds).
Qed.

(** A result that is a [str] is the argument, and it has no digit. *)
Lemma normalize_metric_result (m m' : value) :
  EvaluatorRAG.normalize_metric m = Ok m' ->
  is_str m' = true ->
  m' = m /\ exists s, m = PyStr s /\ re_search_digits s = None.
Proof.
  destruct m as [| b | n | f | s | o]; try (intros [= <-]; discriminate).
  pose proof (normalize_metric_str s) as Hs.
  destruct (re_search_digits s) as [run|] eqn:Hrun.
  - destruct Hs as [ds [_ [_ ->]]].
    destruct (int_max_str_digits <? Z.of_nat (length run))%Z;
      [discriminate |].
    intros [= <-]. discriminate.
  - rewrite Hs. intros [= <-] _. eauto.
Qed.

(** The only error of [normalize_metric] is that of an over-long run. *)
Lemma normalize_metric_raises (m : value) (e : exn) :
  EvaluatorRAG.normalize_metric m = Raise e ->
  e = ValueError int_limit_msg /\
  exists s run,
    m = PyStr s /\ re_search_digits s = Some run /\
    (int_max_str_digits < Z.of_nat (length run))%Z.
Proof.
  destruct m as [| b | n | f | s | o]; try discriminate.
  pose proof (normalize_metric_str s) as Hs.
  destruct (re_search_digits s) as [run|] eqn:Hrun.
  - destruct Hs as [ds [_ [_ ->]]].
    destruct (Z.ltb_spec int_max_str_digits (Z.of_nat (length run)));
      [| discriminate].
    intros [= <-]. split; [reflexivity |]. exists s, run. auto.
  - rewrite Hs. discriminate.
Qed.

(** A [str] around its first run of digits. *)
Lemma normalize_metric_run pre run post ds :
  Forall (fun c => py_todecimal c = None) pre ->
  run <> [] ->
  List.map py_todecimal run = List.map Some ds ->
  (forall c post', post = c :: post' -> py_todecimal c = None) ->
  EvaluatorRAG.normalize_metric (PyStr (pre ++ run ++ post))
  = if (int_max_str_digits <? Z.of_nat (length run))%Z
    then Raise (ValueError int_limit_msg)
    else Ok (PyInt (digits_value ds)).
Proof.
  intros Hpre Hne Hds Hpost. unfold EvaluatorRAG.normalize_metric.
  rewrite (re_search_digits_run pre run post ds) by assumption.
  destruct (Z.ltb_spec int_max_str_digits (Z.of_nat (length run))).
  - now rewrite (py_int_limit run ds).
  - now rewrite (py_int_value run ds).
Qed.

Lemma todecimal_nines n :
  List.map py_todecimal (repeat 57%N n) = List.map Some (repeat 9%N n).
Proof.
  induction n as [|n IH]; [reflexivity |]. simpl repeat.
  rewrite !List.map_cons, IH. reflexivity.
Qed.

Lemma digits_value_nines n :
  digits_value (repeat 9%N n) = (10 ^ Z.of_nat n - 1)%Z.
Proof.
  induction n as [|n IH]; [reflexivity |].
  cbn [repeat digits_value]. rewrite IH, repeat_length.
  rewrite Nat2Z.inj_succ, Z.pow_succ_r by lia. lia.
Qed.

(** A run of nines within the limit is returned in full. *)
Lemma normalize_metric_nines n :
  (Z.of_nat (S n) <= int_max_str_digits)%Z ->
  EvaluatorRAG.normalize_metric (PyStr (repeat 57%N (S n)))
  = Ok (PyInt (10 ^ Z.of_nat (S n) - 1)).
Proof.
  intros Hn.
  pose proof (normalize_metric_run [] (repeat 57%N (S n)) []
                (repeat 9%N (S n)) ltac:(constructor) ltac:(discriminate)
                (todecimal_nines (S n)) ltac:(discriminate)) as Hrun.
  cbn [app] in Hrun. rewrite app_nil_r, repeat_length in Hrun.
  rewrite Hrun, digits_value_nines.
  destruct (Z.ltb_spec int_max_str_digits (Z.of_nat (S n)));
    [lia | reflexivity].
Qed.

(** C1, amended: a value that is not a [str] (in particular a number) is
    returned as it is; in a [str] the leftmost maximal run of decimal
    digits is parsed and returned as an [int] when it has at most 4300
    digits, and makes the function raise [ValueError] when it is longer; a
    [str] without a digit is returned as it is; the four examples of the
    spec hold; values outside 0..10 are not clamped (a run of nines within
    the limit is returned in full), and nothing else is rejected: the only
    error is that of an over-long run. *)
Theorem normalize_metric_first_digit_run :
  (forall m, is_str m = false -> EvaluatorRAG.normalize_metric m = Ok m) /\
  (forall m, is_numeric m = true -> EvaluatorRAG.normalize_metric m = Ok m) /\
  (forall pre run post ds,
      Forall (fun c => py_todecimal c = None) pre ->
      run <> [] ->
      List.map py_todecimal run = List.map Some ds ->
      (forall c post', post = c :: post' -> py_todecimal c = None) ->
      EvaluatorRAG.normalize_metric (PyStr (pre ++ run ++ post))
      = if (int_max_str_digits <? Z.of_nat (length run))%Z
        then Raise (ValueError int_limit_msg)
        else Ok (PyInt (digits_value ds))) /\
  (forall s,
      Forall (fun c => py_todecimal c = None) s ->
      EvaluatorRAG.normalize_metric (PyStr s) = Ok (PyStr s)) /\
  EvaluatorRAG.normalize_metric (PyStr (py "7")) = Ok (PyInt 7) /\
  EvaluatorRAG.normalize_metric (PyStr (py "Score: 9 out of 10"))
  = Ok (PyInt 9) /\
  EvaluatorRAG.normalize_metric (PyStr (py "no digits here"))
  = Ok (PyStr (py "no digits here")) /\
  EvaluatorRAG.normalize_metric (PyInt 8) = Ok (PyInt 8) /\
  EvaluatorRAG.normalize_metric (PyStr (py "11/10")) = Ok (PyInt 11) /\
  EvaluatorRAG.normalize_metric (PyStr (py "about 250%")) = Ok (PyInt 250) /\
  EvaluatorRAG.normalize_metric (PyInt (-3)) = Ok (PyInt (-3)) /\
  (forall n,
      (Z.of_nat (S n) <= int_max_str_digits)%Z ->
      EvaluatorRAG.normalize_metric (PyStr (repeat 57%N (S n)))
      = Ok (PyInt (10 ^ Z.of_nat (S n) - 1))) /\
  (forall m e,
      EvaluatorRAG.normalize_metric m = Raise e ->
      e = ValueError int_limit_msg /\
      exists s run,
        m = PyStr s /\ re_search_digits s = Some run /\
        (int_max_str_digits < Z.of_nat (length run))%Z).
Proof.
  split; [| split; [| split; [| split]]].
  - intros m Hm. destruct m; try reflexivity. discriminate.
  - intros m Hm. destruct m; try reflexivity; discriminate.
  - intros pre run post ds Hpre Hne Hds Hpost.
    now apply normalize_metric_run.
  - intros s Hs. unfold EvaluatorRAG.normalize_metric.
    apply re_search_digits_none in Hs. now rewrite Hs.
  - repeat (split; [reflexivity |]). split.
    + intros n Hn. now apply normalize_metric_nines.
    + intros m e He. now apply normalize_metric_raises.
Qed.

(** C9: normalizing a normalized metric changes nothing: a second
    normalization gives what the first gave, error included, and a value
    that was returned is returned again unchanged. *)
Theorem normalize_metric_idempotent (m : value) :
  rbind (EvaluatorRAG.normalize_metric m) EvaluatorRAG.normalize_metric
  = EvaluatorRAG.normalize_metric m /\
  (forall m',
     EvaluatorRAG.normalize_metric m = Ok m' ->
     EvaluatorRAG.normalize_metric m' = Ok m').
Proof.
  assert (Hfix : forall m',
            EvaluatorRAG.normalize_metric m = Ok m' ->
            EvaluatorRAG.normalize_metric m' = Ok m').
  { intros m' Hm.
    destruct m' as [| b | n | f | s' | o]; try reflexivity.
    destruct (normalize_metric_result m _ Hm eq_refl)
      as [_ [s [-> Hnone]]].
    pose proof (normalize_metric_str s) as Hs. rewrite Hnone in Hs.
    rewrite Hs in Hm. injection Hm as <-. exact Hs. }
  split; [| exact Hfix].
  destruct (EvaluatorRAG.normalize_metric m) as [m' | e] eqn:Hm;
    [| reflexivity].
  cbn [rbind]. now apply Hfix.
Qed.

End Digits.

(** C1, as the claim states it, fails: a run of 4301 nines is not parsed
    as the integer score; the function raises. *)
Lemma normalize_metric_long_run_raises :
  is_numeric (PyStr (repeat 57%N 4301)) = false /\
  @re_search_digits ascii_only (repeat 57%N 4301)
  = Some (repeat 57%N 4301) /\
  @EvaluatorRAG.normalize_metric ascii_only (PyStr (repeat 57%N 4301))
  = Raise (ValueError int_limit_msg).
Proof. split; [reflexivity |]. split; vm_compute; reflexivity. Qed.

(** With a table of Arabic-Indic digits, the run U+0663 U+0664 is 34. *)
Lemma normalize_metric_first_digit_run_witness :
  @EvaluatorRAG.normalize_metric with_arabic_indic
    (PyStr ([97] ++ [1635; 1636] ++ [98; 49])%N)
  = Ok (PyInt 34).
Proof.
  apply (proj1 (proj2 (proj2
           (@normalize_metric_first_digit_run with_arabic_indic)))
           [97%N] [1635%N; 1636%N] [98%N; 49%N] [3%N; 4%N]).
  - repeat constructor.
  - discriminate.
  - reflexivity.
  - intros c post' E. injection E as <- _. reflexivity.
Defined.

Lemma normalize_metric_idempotent_witness :
  @EvaluatorRAG.normalize_metric ascii_only (PyInt 9) = Ok (PyInt 9).
Proof.
  apply (proj2 (@normalize_metric_idempotent ascii_only
                  (PyStr (py "Score: 9 out of 10"))) (PyInt 9)).
  reflexivity.
Defined.

Example normalize_twice_on_sentence :
  rbind (@EvaluatorRAG.normalize_metric ascii_only
           (PyStr (py "Score: 9 out of 10")))
    (@EvaluatorRAG.normalize_metric ascii_only)
  = Ok (PyInt 9).
Proof. reflexivity. Qed.

(** At the limit: 4300 nines are parsed. *)
Example normalize_at_the_limit :
  @EvaluatorRAG.normalize_metric ascii_only (PyStr (repeat 57%N 4300))
  = Ok (PyInt (10 ^ 4300 - 1)).
Proof.
  apply (@normalize_metric_nines ascii_only 4299). vm_compute. discriminate.
Qed.

(** ** Persistence *)

Section Storage.
Context `{Embedding}.

Lemma get_db_put_table path name t w :
  lancedb.get_db path (lancedb.put_table path name t w)
  = <[name := t]> (lancedb.get_db path w).
Proof.
  unfold lancedb.get_db, lancedb.put_table. simpl.
  now rewrite lookup_insert_eq.
Qed.

Lemma table_at_put_table path name t w :
  table_at path name (lancedb.put_table path name t w) = Some t.
Proof.
  unfold table_at. rewrite get_db_put_table. apply lookup_insert_eq.
Qed.

Lemma put_table_put_table path name t1 t2 w :
  lancedb.put_table path name t2 (lancedb.put_table path name t1 w)
  = lancedb.put_table path name t2 w.
Proof.
  unfold lancedb.put_table at 1 3. rewrite get_db_put_table. simpl.
  now rewrite !insert_insert_eq.
Qed.

(** Writing back the table that is there changes nothing. *)
Lemma put_table_same path name t w :
  table_at path name w = Some t -> lancedb.put_table path name t w = w.
Proof.
  unfold table_at, lancedb.put_table, lancedb.get_db. intros Ht.
  destruct w as [st rp cs]. simpl in *.
  destruct (st !! rp path) as [db|] eqn:Hdb; simpl in Ht.
  - rewrite (insert_id db name t Ht).
    now rewrite (insert_id st (rp path) db Hdb).
  - rewrite lookup_empty in Ht. discriminate.
Qed.

(** The branch of [_persist_on_db] for a table that exists. *)
Lemma persist_existing (self : Vectorstore.t) w t :
  table_at (Vectorstore.db_path self) (Vectorstore.tablename self) w
  = Some t ->
  Vectorstore._persist_on_db self w
  = (lancedb.put_table (Vectorstore.db_path self)
       (Vectorstore.tablename self) (indexed t) w,
     Ok tt).
Proof.
  unfold table_at. intros Ht.
  unfold Vectorstore._persist_on_db, bind, lancedb.table_names.
  rewrite bool_decide_eq_true_2 by (apply elem_of_dom; eauto).
  cbn [negb]. unfold lancedb.open_table. cbv beta iota. rewrite Ht.
  unfold lancedb.create_fts_index. cbn [fst snd]. now rewrite Ht.
Qed.

(** The branch of [_persist_on_db] for a table that does not exist: the
    table is created before the text is split. *)
Lemma persist_fresh (self : Vectorstore.t) w :
  table_at (Vectorstore.db_path self) (Vectorstore.tablename self) w = None ->
  Vectorstore._persist_on_db self w
  = match Vectorstore.split_text_into_chunks self with
    | Ok chunks =>
        (lancedb.put_table (Vectorstore.db_path self)
           (Vectorstore.tablename self) (indexed (ingest chunks)) w,
         Ok tt)
    | Raise e =>
        (lancedb.put_table (Vectorstore.db_path self)
           (Vectorstore.tablename self)
           {| rows := []; fts_index := None |} w,
         Raise e)
    end.
Proof.
  unfold table_at. intros Ht.
  unfold Vectorstore._persist_on_db, bind, lancedb.table_names.
  rewrite bool_decide_eq_false_2
    by (rewrite elem_of_dom, Ht; intros [? ?]; discriminate).
  cbn [negb]. unfold lancedb.create_table, lift. cbv beta iota.
  destruct (Vectorstore.split_text_into_chunks self) as [chunks | e];
    [| reflexivity].
  unfold lancedb.add, ret. cbn [fst snd].
  rewrite get_db_put_table, lookup_insert_eq.
  rewrite put_table_put_table.
  unfold lancedb.create_fts_index. cbn [fst snd].
  rewrite get_db_put_table, lookup_insert_eq.
  now rewrite put_table_put_table.
Qed.

Lemma persist_table_after (self : Vectorstore.t) w w1 r1 :
  Vectorstore._persist_on_db self w = (w1, r1) ->
  exists t1,
    table_at (Vectorstore.db_path self) (Vectorstore.tablename self) w1
    = Some t1 /\
    (r1 = Ok tt -> indexed t1 = t1).
Proof.
  destruct (table_at (Vectorstore.db_path self)
              (Vectorstore.tablename self) w) as [t|] eqn:Ht.
  - rewrite (persist_existing self w t Ht). intros [= <- <-].
    exists (indexed t). split; [apply table_at_put_table | reflexivity].
  - rewrite (persist_fresh self w Ht).
    destruct (Vectorstore.split_text_into_chunks self) as [chunks | e];
      intros [= <- <-]; eexists; (split; [apply table_at_put_table |]).
    + reflexivity.
    + discriminate.
Qed.

(** A first ingestion stores one row per chunk, in order. *)
Lemma persist_fresh_rows (self : Vectorstore.t) w chunks :
  table_at (Vectorstore.db_path self) (Vectorstore.tablename self) w = None ->
  (0 < Vectorstore.chunk_size self)%Z ->
  Vectorstore.split_text_into_chunks self = Ok chunks ->
  exists w',
    Vectorstore._persist_on_db self w = (w', Ok tt) /\
    table_rows (Vectorstore.db_path self) (Vectorstore.tablename self) w'
    = Some (List.map (fun s => {| text := s; vec := embed s |}) chunks).
Proof.
  intros Ht Hc Hsplit. rewrite (persist_fresh self w Ht), Hsplit.
  eexists. split; [reflexivity |].
  unfold table_rows. rewrite table_at_put_table. simpl.
  now rewrite (split_chunks_normalized self chunks Hc Hsplit).
Qed.

(** C7: when the table exists, [_persist_on_db] raises nothing and keeps
    its rows; after any first call, a second call for the same path and
    table name keeps the rows and their number; after a first call that
    succeeded, the second call changes nothing at all. *)
Theorem persist_on_db_idempotent (self self' : Vectorstore.t) (w : World) :
  Vectorstore.db_path self' = Vectorstore.db_path self ->
  Vectorstore.tablename self' = Vectorstore.tablename self ->
  let path := Vectorstore.db_path self in
  let name := Vectorstore.tablename self in
  (forall t, table_at path name w = Some t ->
     exists w', Vectorstore._persist_on_db self w = (w', Ok tt) /\
                table_rows path name w' = Some (rows t)) /\
  (forall w1 r1, Vectorstore._persist_on_db self w = (w1, r1) ->
     exists rs w2,
       table_rows path name w1 = Some rs /\
       Vectorstore._persist_on_db self' w1 = (w2, Ok tt) /\
       table_rows path name w2 = Some rs /\
       length <$> table_rows path name w2
       = length <$> table_rows path name w1) /\
  (forall w1, Vectorstore._persist_on_db self w = (w1, Ok tt) ->
     Vectorstore._persist_on_db self' w1 = (w1, Ok tt)).
Proof.
  intros Hp Hn path name. repeat split.
  - intros t Ht. rewrite (persist_existing self w t Ht).
    eexists. split; [reflexivity |].
    unfold table_rows. subst path name. now rewrite table_at_put_table.
  - intros w1 r1 Hrun.
    destruct (persist_table_after self w w1 r1 Hrun) as [t1 [Ht1 _]].
    exists (rows t1). eexists.
    assert (Ht1' : table_at (Vectorstore.db_path self')
                     (Vectorstore.tablename self') w1 = Some t1)
      by now rewrite Hp, Hn.
    rewrite (persist_existing self' w1 t1 Ht1'). rewrite Hp, Hn.
    unfold table_rows. subst path name. rewrite table_at_put_table, Ht1.
    repeat split.
  - intros w1 Hrun.
    destruct (persist_table_after self w w1 (Ok tt) Hrun) as [t1 [Ht1 Hix]].
    assert (Ht1' : table_at (Vectorstore.db_path self')
                     (Vectorstore.tablename self') w1 = Some t1)
      by now rewrite Hp, Hn.
    rewrite (persist_existing self' w1 t1 Ht1'). rewrite Hp, Hn.
    rewrite (Hix eq_refl). now rewrite (put_table_same _ _ _ _ Ht1).
Qed.

End Storage.

Lemma persist_on_db_idempotent_witness :
  @Vectorstore._persist_on_db demo_embedding hours_store empty_world
  = (hours_world, Ok tt) /\
  @Vectorstore._persist_on_db demo_embedding hours_store hours_world
  = (hours_world, Ok tt).
Proof.
  assert (Hfirst :
    @Vectorstore._persist_on_db demo_embedding hours_store empty_world
    = (hours_world, Ok tt)) by reflexivity.
  split; [exact Hfirst |].
  exact (proj2 (proj2
           (@persist_on_db_idempotent demo_embedding hours_store hours_store
              empty_world eq_refl eq_refl))
           hours_world Hfirst).
Defined.

Example hours_world_rows :
  table_rows (py "./db_lancedb") (py "context") hours_world
  = Some [hours_row].
Proof. reflexivity. Qed.

(** A first construction with size zero leaves an empty table behind, and
    the next construction trusts it. *)
Example zero_size_leaves_empty_table :
  let w1 := (@Vectorstore._persist_on_db demo_embedding zero_size_store
               empty_world).1 in
  table_rows (py "./db_lancedb") (py "context") w1 = Some [] /\
  table_rows (py "./db_lancedb") (py "context")
    (@Vectorstore._persist_on_db demo_embedding hours_store w1).1
  = Some [].
Proof. split; reflexivity. Qed.

(** ** The constructors *)

Section Init.
Context `{Embedding}.

(** C8: when the context or the path is missing ([None], or left out),
    [Vectorstore], [RAG] and [RAG_Assitant] raise and build nothing, and
    the storage is not touched; the exception is the [ValueError] of the
    guard, or the [TypeError] of the call when a required parameter of
    [RAG] is left out. *)
Theorem init_requires_context_and_path
  (context_information db_path : arg str) (w : World) :
  or_none context_information = None \/ or_none db_path = None ->
  (forall tablename chunk_size,
     Vectorstore.__init__ context_information db_path tablename chunk_size w
     = (w, Raise (ValueError
                    "Both context_information and db_path must be provided")))
  /\
  (exists e,
     RAG.__init__ context_information db_path w = (w, Raise e) /\
     invalid_argument e = true /\
     (forall c p, context_information = Passed c -> db_path = Passed p ->
        e = ValueError
              "Both context_information and db_path must be provided")) /\
  (exists e,
     RAG_Assitant.__init__ context_information db_path w = (w, Raise e) /\
     invalid_argument e = true).
Proof.
  intros Hmiss.
  assert (HR : exists e,
     RAG.__init__ context_information db_path w = (w, Raise e) /\
     invalid_argument e = true /\
     (forall c p, context_information = Passed c -> db_path = Passed p ->
        e = ValueError
              "Both context_information and db_path must be provided")).
  { unfold RAG.__init__.
    destruct context_information as [|[c|]], db_path as [|[p|]];
      simpl in Hmiss;
      try (destruct Hmiss; discriminate);
      eexists; (split; [reflexivity |]); (split; [reflexivity |]);
      intros c' p' Hc' Hp'; try discriminate; reflexivity. }
  split; [| split].
  - intros tablename chunk_size. unfold Vectorstore.__init__.
    destruct (or_none context_information), (or_none db_path);
      try reflexivity. destruct Hmiss; discriminate.
  - exact HR.
  - destruct HR as [e [He [Hinv _]]]. exists e. split; [| exact Hinv].
    unfold RAG_Assitant.__init__, bind. now rewrite He.
Qed.

End Init.

Lemma init_requires_context_and_path_witness :
  @Vectorstore.__init__ demo_embedding Omitted (Passed (Some (py "./db_lancedb")))
    (py "context") 50 empty_world
  = (empty_world,
     Raise (ValueError
              "Both context_information and db_path must be provided")).
Proof.
  apply (proj1 (@init_requires_context_and_path demo_embedding Omitted
                  (Passed (Some (py "./db_lancedb"))) empty_world
                  (or_introl eq_refl))).
Defined.

Example rag_init_none_path :
  @RAG.__init__ demo_embedding (Passed (Some hours)) (Passed None) empty_world
  = (empty_world,
     Raise (ValueError
              "Both context_information and db_path must be provided")).
Proof. reflexivity. Qed.

Example rag_init_complete :
  @RAG_Assitant.__init__ demo_embedding (Passed (Some hours))
    (Passed (Some (py "./db_lancedb"))) empty_world
  = (hours_world, Ok hours_assistant).
Proof. reflexivity. Qed.

(** ** Retrieval *)

Section Search.
Context `{SearchEngine}.

(** [search_table] on a table that exists: one query, with the reranker of
    weight 0.7 and the limit [top_k], and the texts joined. *)
Lemma search_table_run (self : Vectorstore.t) (q qt : str) (k : Z)
  (w : World) t :
  table_at (Vectorstore.db_path self) (Vectorstore.tablename self) w
  = Some t ->
  Vectorstore.search_table self q qt k w
  = (logged (EvSearch (Vectorstore.db_path self) (Vectorstore.tablename self)
               (hybrid_query q qt k)) w,
     rbind (execute_query t (hybrid_query q qt k))
       (fun rs => Ok (py_join separator (List.map text rs)))).
Proof.
  unfold table_at. intros Ht.
  unfold Vectorstore.search_table, bind, lancedb.open_table. rewrite Ht.
  unfold lancedb.to_list. cbn [fst snd]. rewrite Ht.
  change (lancedb.set_limit k _) with (hybrid_query q qt k).
  destruct (execute_query t (hybrid_query q qt k)); reflexivity.
Qed.

Lemma search_table_missing (self : Vectorstore.t) (q qt : str) (k : Z)
  (w : World) :
  table_at (Vectorstore.db_path self) (Vectorstore.tablename self) w = None ->
  Vectorstore.search_table self q qt k w
  = (w, Raise (TableNotFound (Vectorstore.tablename self))).
Proof.
  unfold table_at. intros Ht.
  unfold Vectorstore.search_table, bind, lancedb.open_table. now rewrite Ht.
Qed.



End Search.



Example search_three_of_one_passage :
  (@Vectorstore.search_table demo_embedding demo_engine hours_store tuesday
     (py "hybrid") 3 hours_world).2
  = Ok hours.
Proof. reflexivity. Qed.

Example search_two_passages :
  (@Vectorstore.search_table demo_embedding demo_engine small_store tuesday
     (py "hybrid") 3
     (@Vectorstore._persist_on_db demo_embedding small_store empty_world).1).2
  = Ok (py "Monday to Friday- context block: 9am-6pm, closed Sunday.").
Proof. reflexivity. Qed.

(** ** The evaluator *)

Section Evaluator.
Context `{Embedding} `{LanguageModel} `{UnicodeDB}.

(** [EvaluatorRAG.forward]: one call of the model, then the fields. *)
Lemma evaluator_forward_run
  (query context_chunks answer answer_rationale : value) (w : World) :
  EvaluatorRAG.forward query context_chunks answer answer_rationale w
  = (logged (EvLM EvaluateAnswer
               (evaluate_inputs query context_chunks answer
                  answer_rationale)) w,
     rbind (evaluation_outcome (calls w) query context_chunks answer
              answer_rationale)
       (fun '(accuracy_metric, rationale_metric) =>
          Ok (evaluation_record query context_chunks answer
                answer_rationale accuracy_metric rationale_metric))).
Proof.
  unfold EvaluatorRAG.forward, bind, call_lm, evaluation_outcome.
  fold (evaluate_inputs query context_chunks answer answer_rationale).
  destruct (lm_call (calls w) EvaluateAnswer _) as [evaluation | e];
    [| reflexivity].
  unfold getattr. cbn [rbind].
  destruct (evaluation !! "accuracy_metric") as [raw |]; [| reflexivity].
  unfold ret, lift.
  destruct (EvaluatorRAG.normalize_metric raw) as [acc | e]; [| reflexivity].
  cbn [rbind].
  destruct (evaluation !! "rationale_metric"); reflexivity.
Qed.

(** C10: a result of [EvaluatorRAG.forward] carries the query, the
    context, the answer and the rationale that were passed, unchanged; its
    two other fields are the normalized metric and the rationale of the
    model; it has no further field, and the storage is not touched. *)
Theorem evaluator_forward_frame
  (query context_chunks answer answer_rationale : value)
  (w w' : World) (p : Prediction) :
  EvaluatorRAG.forward query context_chunks answer answer_rationale w
  = (w', Ok p) ->
  p !! "query" = Some query /\
  p !! "context_chunks" = Some context_chunks /\
  p !! "answer" = Some answer /\
  p !! "answer_rationale" = Some answer_rationale /\
  (exists evaluation raw accuracy_metric,
     lm_call (calls w) EvaluateAnswer
       (evaluate_inputs query context_chunks answer answer_rationale)
     = Ok evaluation /\
     evaluation !! "accuracy_metric" = Some raw /\
     EvaluatorRAG.normalize_metric raw = Ok accuracy_metric /\
     p !! "accuracy_metric" = Some accuracy_metric /\
     p !! "rationale_metric" = evaluation !! "rationale_metric") /\
  dom p = {[ "query"; "context_chunks"; "answer"; "answer_rationale";
             "accuracy_metric"; "rationale_metric" ]} /\
  storage w' = storage w.
Proof.
  rewrite evaluator_forward_run. unfold evaluation_outcome.
  intros [= <- Hp].
  destruct (lm_call (calls w) EvaluateAnswer _) as [evaluation | e];
    [| discriminate].
  cbn [rbind] in Hp.
  destruct (evaluation !! "accuracy_metric") as [raw |] eqn:Hraw;
    [| discriminate].
  destruct (EvaluatorRAG.normalize_metric raw) as [acc | e] eqn:Hacc;
    [| discriminate].
  cbn [rbind] in Hp.
  destruct (evaluation !! "rationale_metric") as [rm |] eqn:Hrm;
    [| discriminate].
  injection Hp as <-. unfold evaluation_record.
  split; [reflexivity |]. split; [reflexivity |].
  split; [reflexivity |]. split; [reflexivity |].
  split; [| split; [| reflexivity]].
  - exists evaluation, raw, acc.
    split; [reflexivity |]. split; [assumption |]. split; [assumption |].
    split; [reflexivity |]. now rewrite Hrm.
  - rewrite !dom_insert_L, dom_singleton_L. set_solver.
Qed.

End Evaluator.

Lemma evaluator_forward_frame_witness :
  (@EvaluatorRAG.forward demo_embedding demo_lm ascii_only
     (PyStr tuesday) (PyStr hours) (PyStr (py "Yes")) PyNone empty_world).2
  = Ok tuesday_evaluation /\
  tuesday_evaluation !! "query" = Some (PyStr tuesday) /\
  tuesday_evaluation !! "context_chunks" = Some (PyStr hours) /\
  tuesday_evaluation !! "answer" = Some (PyStr (py "Yes")) /\
  tuesday_evaluation !! "answer_rationale" = Some PyNone.
Proof.
  assert (Hrun :
    @EvaluatorRAG.forward demo_embedding demo_lm ascii_only
      (PyStr tuesday) (PyStr hours) (PyStr (py "Yes")) PyNone empty_world
    = (logged (EvLM EvaluateAnswer
                 (evaluate_inputs (PyStr tuesday) (PyStr hours)
                    (PyStr (py "Yes")) PyNone)) empty_world,
       Ok tuesday_evaluation)) by reflexivity.
  split; [now rewrite Hrun |].
  destruct (@evaluator_forward_frame demo_embedding demo_lm ascii_only
              _ _ _ _ _ _ _ Hrun) as [H1 [H2 [H3 [H4 _]]]].
  repeat split; assumption.
Defined.

(** ** The orchestrator *)

Section Pipeline.
Context `{SearchEngine} `{LanguageModel} `{UnicodeDB}.

(** [RAG.forward]: the retrieval, then one call of the model. *)
Lemma rag_forward_run (self : RAG.t) (query : str) (w : World) :
  let vs := RAG.vectorstore self in
  let path := Vectorstore.db_path vs in
  let name := Vectorstore.tablename vs in
  let Q := hybrid_query query (py "hybrid") 3 in
  RAG.forward self query w
  = match table_at path name w with
    | None => (w, Raise (TableNotFound name))
    | Some t =>
        let w1 := logged (EvSearch path name Q) w in
        match execute_query t Q with
        | Raise e => (w1, Raise e)
        | Ok rs =>
            let ctx := py_join separator (List.map text rs) in
            (logged (EvLM GenerateAnswer (generate_inputs query ctx)) w1,
             rbind (generation_outcome (calls w1) query ctx)
               (fun '(a, ar) => Ok (answer_record query ctx a ar)))
        end
    end.
Proof.
  intros vs path name Q. unfold RAG.forward, bind. fold vs.
  destruct (table_at path name w) as [t|] eqn:Ht.
  - rewrite (search_table_run vs query (py "hybrid") 3 w t Ht).
    fold path name Q.
    destruct (execute_query t Q) as [rs | e]; [| reflexivity].
    cbn [rbind]. cbv zeta. unfold call_lm, generation_outcome.
    fold (generate_inputs query (py_join separator (List.map text rs))).
    destruct (lm_call _ GenerateAnswer _) as [prediction | e];
      [| reflexivity].
    unfold getattr. cbn [rbind].
    destruct (prediction !! "answer") as [a|]; [| reflexivity].
    destruct (prediction !! "answer_rationale") as [ar|]; reflexivity.
  - now rewrite (search_table_missing vs query (py "hybrid") 3 w Ht).
Qed.

(** [process_question], stage by stage. *)
Lemma process_question_run (self : RAG_Assitant.t) (query : str)
  (w : World) :
  let vs := RAG.vectorstore (RAG_Assitant.rag self) in
  let path := Vectorstore.db_path vs in
  let name := Vectorstore.tablename vs in
  let Q := hybrid_query query (py "hybrid") 3 in
  RAG_Assitant.process_question self query w
  = match table_at path name w with
    | None => (w, Raise (TableNotFound name))
    | Some t =>
        let w1 := logged (EvSearch path name Q) w in
        match execute_query t Q with
        | Raise e => (w1, Raise e)
        | Ok rs =>
            let ctx := py_join separator (List.map text rs) in
            let w2 :=
              logged (EvLM GenerateAnswer (generate_inputs query ctx)) w1 in
            match generation_outcome (calls w1) query ctx with
            | Raise e => (w2, Raise e)
            | Ok (a, ar) =>
                let w3 :=
                  logged (EvLM EvaluateAnswer
                            (evaluate_inputs (PyStr query) (PyStr ctx) a ar))
                    w2 in
                match evaluation_outcome (calls w2) (PyStr query)
                        (PyStr ctx) a ar with
                | Raise e => (w3, Raise e)
                | Ok (acc, rm) =>
                    (w3, Ok (evaluation_record (PyStr query) (PyStr ctx)
                               a ar acc rm))
                end
            end
        end
    end.
Proof.
  intros vs path name Q. unfold RAG_Assitant.process_question, bind.
  rewrite rag_forward_run. fold vs path name Q. cbv zeta.
  destruct (table_at path name w) as [t|]; [| reflexivity].
  destruct (execute_query t Q) as [rs | e]; [| reflexivity].
  destruct (generation_outcome _ query _) as [[a ar] | e]; [| reflexivity].
  cbn [rbind]. unfold getattr, answer_record, ret.
  change (({[ "query" := PyStr query;
              "context_chunks" :=
                PyStr (py_join separator (List.map text rs));
              "answer" := a; "answer_rationale" := ar ]} : Prediction)
          !! "context_chunks")
    with (Some (PyStr (py_join separator (List.map text rs)))).
  change (({[ "query" := PyStr query;
              "context_chunks" :=
                PyStr (py_join separator (List.map text rs));
              "answer" := a; "answer_rationale" := ar ]} : Prediction)
          !! "answer")
    with (Some a).
  change (({[ "query" := PyStr query;
              "context_chunks" :=
                PyStr (py_join separator (List.map text rs));
              "answer" := a; "answer_rationale" := ar ]} : Prediction)
          !! "answer_rationale")
    with (Some ar).
  cbv beta iota.
  rewrite evaluator_forward_run.
  destruct (evaluation_outcome _ _ _ _ _) as [[acc rm] | e]; reflexivity.
Qed.

(** C6: [process_question] never changes the storage.  When it returns,
    the retrieval, the generation and the evaluation each ran once, in
    that order, and the result has the six fields.  When it raises, the
    exception is that of the first stage that failed, the later stages
    were not called, and nothing is returned. *)
Theorem process_question_all_or_nothing (self : RAG_Assitant.t)
  (query : str) (w : World) :
  let vs := RAG.vectorstore (RAG_Assitant.rag self) in
  let path := Vectorstore.db_path vs in
  let name := Vectorstore.tablename vs in
  let ev1 := EvSearch path name (hybrid_query query (py "hybrid") 3) in
  let ev2 ctx := EvLM GenerateAnswer (generate_inputs query ctx) in
  let ev3 ctx a ar :=
    EvLM EvaluateAnswer (evaluate_inputs (PyStr query) (PyStr ctx) a ar) in
  let run := RAG_Assitant.process_question self query w in
  storage run.1 = storage w /\
  match run.2 with
  | Ok d =>
      exists t rs a ar acc rm,
        table_at path name w = Some t /\
        execute_query t (hybrid_query query (py "hybrid") 3) = Ok rs /\
        generation_outcome (calls w ++ [ev1]) query
          (py_join separator (List.map text rs)) = Ok (a, ar) /\
        evaluation_outcome
          (calls w ++ [ev1; ev2 (py_join separator (List.map text rs))])
          (PyStr query) (PyStr (py_join separator (List.map text rs))) a ar
        = Ok (acc, rm) /\
        calls run.1
        = calls w ++ [ev1; ev2 (py_join separator (List.map text rs));
                      ev3 (py_join separator (List.map text rs)) a ar] /\
        d = evaluation_record (PyStr query)
              (PyStr (py_join separator (List.map text rs))) a ar acc rm
  | Raise e =>
      (table_at path name w = None /\ e = TableNotFound name /\
       calls run.1 = calls w) \/
      (exists t,
         table_at path name w = Some t /\
         execute_query t (hybrid_query query (py "hybrid") 3) = Raise e /\
         calls run.1 = calls w ++ [ev1]) \/
      (exists t rs,
         table_at path name w = Some t /\
         execute_query t (hybrid_query query (py "hybrid") 3) = Ok rs /\
         generation_outcome (calls w ++ [ev1]) query
           (py_join separator (List.map text rs)) = Raise e /\
         calls run.1
         = calls w ++ [ev1; ev2 (py_join separator (List.map text rs))]) \/
      (exists t rs a ar,
         table_at path name w = Some t /\
         execute_query t (hybrid_query query (py "hybrid") 3) = Ok rs /\
         generation_outcome (calls w ++ [ev1]) query
           (py_join separator (List.map text rs)) = Ok (a, ar) /\
         evaluation_outcome
           (calls w ++ [ev1; ev2 (py_join separator (List.map text rs))])
           (PyStr query) (PyStr (py_join separator (List.map text rs))) a ar
         = Raise e /\
         calls run.1
         = calls w ++ [ev1; ev2 (py_join separator (List.map text rs));
                       ev3 (py_join separator (List.map text rs)) a ar])
  end.
Proof.
  intros vs path name ev1 ev2 ev3 run. subst run.
  rewrite process_question_run. fold vs path name. cbv zeta.
  fold ev1.
  destruct (table_at path name w) as [t|] eqn:Ht.
  2:{ split; [reflexivity | left; repeat split]. }
  destruct (execute_query t _) as [rs | e] eqn:Hrs.
  2:{ split; [reflexivity |]. right; left. exists t.
      repeat split; assumption || reflexivity. }
  fold (ev2 (py_join separator (List.map text rs))).
  change (calls (logged ev1 w)) with (calls w ++ [ev1]).
  destruct (generation_outcome _ query _) as [[a ar] | e] eqn:Hgen.
  2:{ split; [reflexivity |]. right; right; left. exists t, rs.
      repeat split; try assumption.
      cbn [fst snd logged calls]. now rewrite <- app_assoc. }
  fold (ev3 (py_join separator (List.map text rs)) a ar).
  change (calls (logged (ev2 (py_join separator (List.map text rs)))
                   (logged ev1 w)))
    with ((calls w ++ [ev1])
            ++ [ev2 (py_join separator (List.map text rs))]).
  rewrite <- app_assoc. simpl app.
  destruct (evaluation_outcome _ _ _ _ _) as [[acc rm] | e] eqn:Hev.
  - split; [reflexivity |]. exists t, rs, a, ar, acc, rm.
    repeat split; try assumption.
    cbn [fst snd logged calls]. now rewrite <- !app_assoc.
  - split; [reflexivity |]. right; right; right. exists t, rs, a, ar.
    repeat split; try assumption.
    cbn [fst snd logged calls]. now rewrite <- !app_assoc.
Qed.

End Pipeline.

Example process_tuesday :
  (@RAG_Assitant.process_question demo_embedding demo_engine demo_lm
     ascii_only hours_assistant tuesday hours_world).2
  = Ok (evaluation_record (PyStr tuesday) (PyStr hours)
          (PyStr (py "Yes, it is open on Tuesday."))
          (PyStr (py "Monday to Friday")) (PyInt 9)
          (PyStr (py "supported"))).
Proof. reflexivity. Qed.

Example process_tuesday_calls :
  List.map (fun ev => match ev with
                      | EvSearch _ _ _ => None
                      | EvLM sig _ => Some sig
                      end)
    (calls (@RAG_Assitant.process_question demo_embedding demo_engine
              demo_lm ascii_only hours_assistant tuesday hours_world).1)
  = [None; Some GenerateAnswer; Some EvaluateAnswer].
Proof. reflexivity. Qed.

(** The evaluation fails: the answer that was generated is not returned. *)
Example process_without_grade :
  (@RAG_Assitant.process_question demo_embedding demo_engine no_grade_lm
     ascii_only hours_assistant tuesday hours_world).2
  = Raise (CollaboratorError 429).
Proof. reflexivity. Qed.

(** The generation is malformed: the evaluator is not called. *)
Example process_malformed_answer :
  let run :=
    @RAG_Assitant.process_question demo_embedding demo_engine malformed_lm
      ascii_only hours_assistant tuesday hours_world in
  run.2 = Raise (AttributeError "answer") /\ length (calls run.1) = 2.
Proof. split; reflexivity. Qed.

(** The storage is unreachable: no model is called. *)
Example process_engine_down :
  let run :=
    @RAG_Assitant.process_question demo_embedding down_engine demo_lm
      ascii_only hours_assistant tuesday hours_world in
  run.2 = Raise (CollaboratorError 503) /\ length (calls run.1) = 1.
Proof. split; reflexivity. Qed.

(** The table is gone: nothing is called. *)
Example process_table_missing :
  @RAG_Assitant.process_question demo_embedding demo_engine demo_lm
    ascii_only hours_assistant tuesday empty_world
  = (empty_world, Raise (TableNotFound (py "context"))).
Proof. reflexivity. Qed.

(** * Further properties *)

(** ** More on the chunker *)

Lemma range_len_counts (n : nat) (c : Z) :
  (0 < c)%Z ->
  let m := Z.to_nat (range_len 0 (Z.of_nat n) c) in
  (n = 0 -> m = 0) /\
  (0 < n -> (m - 1) * Z.to_nat c < n <= m * Z.to_nat c).
Proof.
  intros Hc m. split.
  - intros ->. subst m. simpl Z.of_nat. now rewrite range_len_zero.
  - intros Hn.
    pose proof (range_len_bounds (Z.of_nat n) c ltac:(lia) Hc).
    subst m. nia.
Qed.

(** The number of items of [range(0, n, c)] is the quotient rounded up. *)
Lemma range_len_ceil (n c : Z) :
  (0 <= n)%Z -> (0 < c)%Z -> range_len 0 n c = ((n + c - 1) / c)%Z.
Proof.
  intros Hn Hc. unfold range_len.
  destruct (Z.ltb_spec 0 c); [| lia].
  destruct (Z.ltb_spec 0 n).
  - replace (n - 0 - 1)%Z with (n - 1)%Z by lia.
    replace (n + c - 1)%Z with ((n - 1) + 1 * c)%Z by lia.
    rewrite Z.div_add by lia. reflexivity.
  - replace n with 0%Z by lia. rewrite Z.div_small by lia. reflexivity.
Qed.

Lemma groups_words (ws : list str) (c : Z) :
  (0 < c)%Z ->
  concat (List.map (group (Z.to_nat c) ws)
            (seq 0 (Z.to_nat (range_len 0 (Z.of_nat (length ws)) c))))
  = ws.
Proof.
  intros Hc. destruct (range_len_counts (length ws) c Hc) as [H0 H1].
  apply groups_concat; [lia | exact H0 | exact H1].
Qed.

Lemma singletons {A} (l : list A) :
  List.map (fun k => firstn 1 (skipn k l)) (seq 0 (length l))
  = List.map (fun x => [x]) l.
Proof.
  induction l as [|x l IH]; [reflexivity |].
  simpl length. rewrite <- cons_seq, <- seq_shift.
  cbn [List.map]. rewrite List.map_map. f_equal. exact IH.
Qed.

(** X1: for a positive chunk size the number of chunks is the number of
    words divided by the chunk size, rounded up. *)
Theorem split_text_into_chunks_count (self : Vectorstore.t) chunks :
  (0 < Vectorstore.chunk_size self)%Z ->
  Vectorstore.split_text_into_chunks self = Ok chunks ->
  Z.of_nat (length chunks)
  = ((Z.of_nat (word_count (Vectorstore.context_information self))
      + Vectorstore.chunk_size self - 1) / Vectorstore.chunk_size self)%Z.
Proof.
  intros Hc. rewrite (chunks_are_groups self Hc). intros [= <-].
  rewrite length_map, length_seq. unfold word_count.
  rewrite <- range_len_ceil by lia.
  rewrite Z2Nat.id; [reflexivity |].
  rewrite range_len_ceil by lia. apply Z.div_pos; lia.
Qed.

Lemma split_text_into_chunks_count_witness :
  Z.of_nat (length hours_chunks)
  = ((Z.of_nat (word_count hours) + 3 - 1) / 3)%Z.
Proof.
  apply (split_text_into_chunks_count small_store hours_chunks).
  - simpl. lia.
  - reflexivity.
Defined.

(** X2: the words of the chunks, in order, are the words of the text, and
    chunking the chunks joined with single spaces, with the same size,
    gives the same chunks again. *)
Theorem split_text_into_chunks_rechunk (self self' : Vectorstore.t) chunks :
  (0 < Vectorstore.chunk_size self)%Z ->
  Vectorstore.split_text_into_chunks self = Ok chunks ->
  Vectorstore.context_information self' = py_join (py " ") chunks ->
  Vectorstore.chunk_size self' = Vectorstore.chunk_size self ->
  concat (List.map py_split chunks)
  = py_split (Vectorstore.context_information self) /\
  Vectorstore.split_text_into_chunks self' = Ok chunks.
Proof.
  intros Hc Hsplit Hctx Hsize.
  pose proof Hsplit as Hgroups.
  rewrite (chunks_are_groups self Hc) in Hgroups.
  injection Hgroups as Hgroups.
  pose proof (groups_words
                (py_split (Vectorstore.context_information self)) _ Hc)
    as Hcat.
  set (ws := py_split (Vectorstore.context_information self)) in *.
  set (C := Z.to_nat (Vectorstore.chunk_size self)) in *.
  set (m := Z.to_nat (range_len 0 (Z.of_nat (length ws))
                        (Vectorstore.chunk_size self))) in *.
  assert (Hgood : Forall good_word ws) by apply py_split_good.
  assert (Hwords : concat (List.map py_split chunks) = ws).
  { rewrite <- Hgroups, List.map_map.
    rewrite (List.map_ext _ (group C ws)).
    - exact Hcat.
    - intros k. apply py_split_join, group_good, Hgood. }
  split; [exact Hwords |].
  assert (Hsame : py_split (Vectorstore.context_information self') = ws).
  { rewrite Hctx, <- Hgroups.
    rewrite <- (List.map_map (group C ws) (py_join (py " "))).
    rewrite py_join_concat.
    - rewrite Hcat. now apply py_split_join.
    - apply List.Forall_forall. intros g Hg.
      apply in_map_iff in Hg as [k [<- Hk]]. apply in_seq in Hk.
      destruct (range_len_counts (length ws) _ Hc) as [H0 H1].
      pose proof (group_size ws C m ltac:(subst C; lia) H0 H1 k
                    ltac:(lia)) as Hs.
      intros E. rewrite E in Hs. simpl in Hs. lia. }
  rewrite <- Hsplit.
  unfold Vectorstore.split_text_into_chunks. now rewrite Hsame, Hsize.
Qed.

Lemma split_text_into_chunks_rechunk_witness :
  concat (List.map py_split hours_chunks) = py_split hours /\
  Vectorstore.split_text_into_chunks small_store = Ok hours_chunks.
Proof.
  apply (split_text_into_chunks_rechunk small_store small_store
           hours_chunks).
  - simpl. lia.
  - reflexivity.
  - reflexivity.
  - reflexivity.
Defined.

(** X3: a text with at least one word and no more words than the chunk
    size gives exactly one chunk, its words joined with single spaces. *)
Theorem split_text_into_chunks_fits (self : Vectorstore.t) :
  0 < word_count (Vectorstore.context_information self) ->
  (Z.of_nat (word_count (Vectorstore.context_information self))
   <= Vectorstore.chunk_size self)%Z ->
  Vectorstore.split_text_into_chunks self
  = Ok [py_join (py " ") (py_split (Vectorstore.context_information self))].
Proof.
  unfold word_count. intros Hn Hfit.
  assert (Hc : (0 < Vectorstore.chunk_size self)%Z) by lia.
  rewrite (chunks_are_groups self Hc).
  assert (Hone :
    range_len 0
      (Z.of_nat (length (py_split (Vectorstore.context_information self))))
      (Vectorstore.chunk_size self) = 1%Z).
  { rewrite range_len_ceil by lia. symmetry.
    apply Z.div_unique with
      (r := (Z.of_nat
               (length (py_split (Vectorstore.context_information self)))
             - 1)%Z);
      lia. }
  rewrite Hone. simpl seq. simpl List.map. unfold group. simpl Nat.mul.
  rewrite skipn_O, firstn_all2 by lia. reflexivity.
Qed.

Lemma split_text_into_chunks_fits_witness :
  Vectorstore.split_text_into_chunks hours_store
  = Ok [py_join (py " ") (py_split hours)].
Proof.
  apply (split_text_into_chunks_fits hours_store).
  - vm_compute. lia.
  - vm_compute. discriminate.
Defined.

(** X4: with chunk size one the chunks are the words of the text. *)
Theorem split_text_into_chunks_single_words (self : Vectorstore.t) :
  Vectorstore.chunk_size self = 1%Z ->
  Vectorstore.split_text_into_chunks self
  = Ok (py_split (Vectorstore.context_information self)).
Proof.
  intros Hone.
  rewrite (chunks_are_groups self ltac:(lia)). rewrite Hone.
  rewrite range_len_ceil by lia.
  replace (Z.of_nat
             (length (py_split (Vectorstore.context_information self)))
           + 1 - 1)%Z
    with (Z.of_nat
            (length (py_split (Vectorstore.context_information self))))
    by lia.
  rewrite Z.div_1_r, Nat2Z.id. f_equal.
  set (ws := py_split (Vectorstore.context_information self)).
  rewrite <- (List.map_map (group (Z.to_nat 1) ws) (py_join (py " "))).
  rewrite (List.map_ext (group (Z.to_nat 1) ws)
             (fun k => firstn 1 (skipn k ws))).
  - rewrite singletons, List.map_map. simpl. apply List.map_id.
  - intros k. unfold group. f_equal. f_equal. simpl Z.to_nat. lia.
Qed.

Lemma split_text_into_chunks_single_words_witness :
  Vectorstore.split_text_into_chunks word_store = Ok (py_split hours).
Proof.
  apply (split_text_into_chunks_single_words word_store). reflexivity.
Defined.

(** ** More on persistence and construction *)

Section MoreStorage.
Context `{Embedding}.

Lemma table_at_put_table_ne path name path' name' t w :
  (realpath w path', name') <> (realpath w path, name) ->
  table_at path' name' (lancedb.put_table path name t w)
  = table_at path' name' w.
Proof.
  intros Hne. unfold table_at, lancedb.get_db, lancedb.put_table.
  cbn [storage realpath].
  destruct (decide (realpath w path' = realpath w path)) as [E | Hp].
  - rewrite E, lookup_insert_eq. cbn [default].
    apply lookup_insert_ne. congruence.
  - now rewrite lookup_insert_ne by congruence.
Qed.

Lemma realpath_put_table path name t w :
  realpath (lancedb.put_table path name t w) = realpath w.
Proof. reflexivity. Qed.

(** Every run of [_persist_on_db] writes one table and nothing else. *)
Lemma persist_writes_one_table (self : Vectorstore.t) w :
  exists t,
    (Vectorstore._persist_on_db self w).1
    = lancedb.put_table (Vectorstore.db_path self)
        (Vectorstore.tablename self) t w.
Proof.
  destruct (table_at (Vectorstore.db_path self)
              (Vectorstore.tablename self) w) as [t|] eqn:Ht.
  - rewrite (persist_existing self w t Ht). eauto.
  - rewrite (persist_fresh self w Ht).
    destruct (Vectorstore.split_text_into_chunks self); eauto.
Qed.

Lemma split_zero (self : Vectorstore.t) :
  Vectorstore.chunk_size self = 0%Z ->
  Vectorstore.split_text_into_chunks self
  = Raise (ValueError "range() arg 3 must not be zero").
Proof.
  intros Hz. unfold Vectorstore.split_text_into_chunks, py_range.
  now rewrite Hz.
Qed.

(** X5: when the table does not exist, the chunk size is positive and the
    text has a word, the first ingestion succeeds and stores one row per
    chunk, in order, whose text is the chunk itself (the whitespace
    normalization changes nothing) and whose vector is its embedding. *)
Theorem persist_on_db_first_ingestion (self : Vectorstore.t) (w : World) :
  table_at (Vectorstore.db_path self) (Vectorstore.tablename self) w = None ->
  (0 < Vectorstore.chunk_size self)%Z ->
  0 < word_count (Vectorstore.context_information self) ->
  exists w' chunks,
    Vectorstore.split_text_into_chunks self = Ok chunks /\
    chunks <> [] /\
    Vectorstore._persist_on_db self w = (w', Ok tt) /\
    table_rows (Vectorstore.db_path self) (Vectorstore.tablename self) w'
    = Some (List.map (fun s => {| text := s; vec := embed s |}) chunks).
Proof.
  unfold word_count. intros Ht Hc Hn.
  pose proof (chunks_are_groups self Hc) as Hsplit. cbv zeta in Hsplit.
  destruct (persist_fresh_rows self w _ Ht Hc Hsplit) as [w' [Hrun Hrows]].
  exists w'. eexists. split; [exact Hsplit |].
  split; [| split; [exact Hrun | exact Hrows]].
  intros E. apply (f_equal (@length str)) in E.
  rewrite length_map, length_seq in E. simpl in E.
  destruct (range_len_counts
              (length (py_split (Vectorstore.context_information self)))
              _ Hc) as [_ Hm].
  specialize (Hm Hn). rewrite E in Hm. simpl in Hm. lia.
Qed.

(** X6: [_persist_on_db] leaves every table but its own as it was: a
    table of another name, or of a database in another directory, is
    unchanged; the directories that paths name are unchanged; and no call
    is made to the search engine or the language model. *)
Theorem persist_on_db_frame (self : Vectorstore.t) (w : World)
  (path name : str) :
  (realpath w path, name)
  <> (realpath w (Vectorstore.db_path self), Vectorstore.tablename self) ->
  table_at path name (Vectorstore._persist_on_db self w).1
  = table_at path name w /\
  realpath (Vectorstore._persist_on_db self w).1 = realpath w /\
  calls (Vectorstore._persist_on_db self w).1 = calls w.
Proof.
  intros Hne. destruct (persist_writes_one_table self w) as [t ->].
  split; [now apply table_at_put_table_ne |]. split; reflexivity.
Qed.

(** X7: with chunk size zero and no table yet, [_persist_on_db] raises the
    [ValueError] of [range] after the table was created, so an empty table
    without index stays behind; a later call for the same path and table
    name, whatever its text and chunk size, succeeds and ingests nothing. *)
Theorem persist_on_db_zero_size_poisons (self self' : Vectorstore.t)
  (w : World) :
  table_at (Vectorstore.db_path self) (Vectorstore.tablename self) w = None ->
  Vectorstore.chunk_size self = 0%Z ->
  Vectorstore.db_path self' = Vectorstore.db_path self ->
  Vectorstore.tablename self' = Vectorstore.tablename self ->
  exists w1 w2,
    Vectorstore._persist_on_db self w
    = (w1, Raise (ValueError "range() arg 3 must not be zero")) /\
    table_at (Vectorstore.db_path self) (Vectorstore.tablename self) w1
    = Some {| rows := []; fts_index := None |} /\
    Vectorstore._persist_on_db self' w1 = (w2, Ok tt) /\
    table_rows (Vectorstore.db_path self) (Vectorstore.tablename self) w2
    = Some [].
Proof.
  intros Ht Hz Hp Hn.
  rewrite (persist_fresh self w Ht), (split_zero self Hz).
  eexists. eexists. split; [reflexivity |].
  split; [apply table_at_put_table |].
  rewrite (persist_existing self' _ {| rows := []; fts_index := None |})
    by (rewrite Hp, Hn; apply table_at_put_table).
  split; [reflexivity |].
  rewrite Hp, Hn. unfold table_rows. now rewrite table_at_put_table.
Qed.

(** X8: after a call of [_persist_on_db] that succeeded, the table exists
    and its full-text index covers exactly the texts of its rows. *)
Theorem persist_on_db_index_in_sync (self : Vectorstore.t) (w w1 : World) :
  Vectorstore._persist_on_db self w = (w1, Ok tt) ->
  exists t,
    table_at (Vectorstore.db_path self) (Vectorstore.tablename self) w1
    = Some t /\
    fts_index t = Some (List.map text (rows t)).
Proof.
  intros Hrun.
  destruct (persist_table_after self w w1 (Ok tt) Hrun) as [t [Ht Hix]].
  exists t. split; [exact Ht |].
  rewrite <- (Hix eq_refl). reflexivity.
Qed.

(** [Vectorstore(c, p, name, size)] succeeds on a corpus with a word and a
    positive size, and on a table that exists; an existing table is only
    indexed again. *)
Lemma vectorstore_init_ok (c p name : str) (size : Z) (w : World) :
  ((0 < size)%Z /\ 0 < word_count c) \/ is_Some (table_at p name w) ->
  exists t,
    Vectorstore.__init__ (Passed (Some c)) (Passed (Some p)) name size w
    = (lancedb.put_table p name t w, Ok (Vectorstore.Build c p name size)) /\
    (forall t0, table_at p name w = Some t0 -> t = indexed t0).
Proof.
  intros Hok. set (self := Vectorstore.Build c p name size).
  unfold Vectorstore.__init__, bind. cbn [or_none]. cbv zeta. fold self.
  destruct (table_at p name w) as [t0|] eqn:Ht.
  - rewrite (persist_existing self w t0 Ht). exists (indexed t0).
    split; [reflexivity |]. now intros ? [= <-].
  - rewrite (persist_fresh self w Ht).
    destruct Hok as [[Hpos _] | [t Hsome]]; [| discriminate].
    rewrite (chunks_are_groups self Hpos). eexists.
    split; [reflexivity | discriminate].
Qed.

(** X9: a [Vectorstore] built from a corpus with a word and a positive
    chunk size, or over a table that exists, is returned with the
    attributes passed, and [search_table] on it then finds its table: it
    makes one query and returns what the engine returns, joined. *)
Theorem vectorstore_init_then_search `{!SearchEngine}
  (c p name : str) (size : Z) (w : World) :
  ((0 < size)%Z /\ 0 < word_count c) \/ is_Some (table_at p name w) ->
  exists w1 t,
    Vectorstore.__init__ (Passed (Some c)) (Passed (Some p)) name size w
    = (w1, Ok (Vectorstore.Build c p name size)) /\
    table_at p name w1 = Some t /\
    forall q qt k,
      Vectorstore.search_table (Vectorstore.Build c p name size) q qt k w1
      = (logged (EvSearch p name (hybrid_query q qt k)) w1,
         rbind (execute_query t (hybrid_query q qt k))
           (fun rs => Ok (py_join separator (List.map text rs)))).
Proof.
  intros Hok.
  destruct (vectorstore_init_ok c p name size w Hok) as [t [Hinit _]].
  exists (lancedb.put_table p name t w), t.
  split; [exact Hinit |].
  split; [apply table_at_put_table |].
  intros q qt k.
  apply (search_table_run (Vectorstore.Build c p name size) q qt k).
  apply table_at_put_table.
Qed.

End MoreStorage.

Lemma persist_on_db_first_ingestion_witness :
  exists w' chunks,
    Vectorstore.split_text_into_chunks small_store = Ok chunks /\
    chunks <> [] /\
    @Vectorstore._persist_on_db demo_embedding small_store empty_world
    = (w', Ok tt) /\
    table_rows (py "./db_lancedb") (py "context") w'
    = Some (List.map
              (fun s => {| text := s; vec := @embed demo_embedding s |})
              chunks).
Proof.
  apply (@persist_on_db_first_ingestion demo_embedding small_store
           empty_world).
  - reflexivity.
  - simpl. lia.
  - vm_compute. lia.
Defined.

Example small_store_rows :
  table_rows (py "./db_lancedb") (py "context")
    (@Vectorstore._persist_on_db demo_embedding small_store empty_world).1
  = Some [ {| text := py "Monday to Friday";
              vec := @embed demo_embedding (py "Monday to Friday") |};
           {| text := py "9am-6pm, closed Sunday.";
              vec := @embed demo_embedding (py "9am-6pm, closed Sunday.") |} ].
Proof. reflexivity. Qed.

Lemma persist_on_db_frame_witness :
  table_at (py "./db_lancedb") (py "context")
    (@Vectorstore._persist_on_db demo_embedding notes_store hours_world).1
  = table_at (py "./db_lancedb") (py "context") hours_world /\
  realpath
    (@Vectorstore._persist_on_db demo_embedding notes_store hours_world).1
  = realpath hours_world /\
  calls (@Vectorstore._persist_on_db demo_embedding notes_store
           hours_world).1
  = calls hours_world.
Proof.
  apply (@persist_on_db_frame demo_embedding notes_store hours_world
           (py "./db_lancedb") (py "context")).
  intros E. vm_compute in E. discriminate.
Defined.

(** Two spellings of one directory are one database: the table written
    through [./db_lancedb] is the one read through [db_lancedb]. *)
Example one_directory_two_spellings :
  table_at (py "db_lancedb") (py "context") hours_world
  = table_at (py "./db_lancedb") (py "context") hours_world /\
  table_rows (py "db_lancedb") (py "context") hours_world
  = Some [hours_row].
Proof. split; reflexivity. Qed.

Lemma persist_on_db_zero_size_poisons_witness :
  exists w1 w2,
    @Vectorstore._persist_on_db demo_embedding zero_size_store empty_world
    = (w1, Raise (ValueError "range() arg 3 must not be zero")) /\
    table_at (py "./db_lancedb") (py "context") w1
    = Some {| rows := []; fts_index := None |} /\
    @Vectorstore._persist_on_db demo_embedding hours_store w1 = (w2, Ok tt) /\
    table_rows (py "./db_lancedb") (py "context") w2 = Some [].
Proof.
  apply (@persist_on_db_zero_size_poisons demo_embedding zero_size_store
           hours_store empty_world); reflexivity.
Defined.

Lemma persist_on_db_index_in_sync_witness :
  exists t,
    table_at (py "./db_lancedb") (py "context") hours_world = Some t /\
    fts_index t = Some (List.map text (rows t)).
Proof.
  apply (@persist_on_db_index_in_sync demo_embedding hours_store empty_world
           hours_world).
  reflexivity.
Defined.

Lemma vectorstore_init_then_search_witness :
  exists w1 t,
    @Vectorstore.__init__ demo_embedding (Passed (Some hours))
      (Passed (Some (py "./db_lancedb"))) (py "context") 3 empty_world
    = (w1, Ok small_store) /\
    table_at (py "./db_lancedb") (py "context") w1 = Some t /\
    forall q qt k,
      @Vectorstore.search_table demo_embedding demo_engine small_store
        q qt k w1
      = (logged (EvSearch (py "./db_lancedb") (py "context")
                   (hybrid_query q qt k)) w1,
         rbind (@execute_query demo_embedding demo_engine t
                  (hybrid_query q qt k))
           (fun rs => Ok (py_join separator (List.map text rs)))).
Proof.
  apply (@vectorstore_init_then_search demo_embedding demo_engine hours
           (py "./db_lancedb") (py "context") 3 empty_world).
  left. split; [lia | vm_compute; lia].
Defined.

(** ** More on retrieval *)

Section MoreSearch.
Context `{SearchEngine}.

(** X10: [search_table] never changes the storage.  On a missing table it
    raises [TableNotFound] and the engine is not called; on a table that
    exists it sends the engine one query, with the reranker of weight 0.7
    and the limit [top_k]; an error of the engine is raised unchanged, and
    an empty answer of the engine gives the empty context. *)
Theorem search_table_effects (self : Vectorstore.t) (q qt : str) (k : Z)
  (w : World) :
  storage (Vectorstore.search_table self q qt k w).1 = storage w /\
  match table_at (Vectorstore.db_path self) (Vectorstore.tablename self) w
  with
  | None =>
      Vectorstore.search_table self q qt k w
      = (w, Raise (TableNotFound (Vectorstore.tablename self)))
  | Some t =>
      calls (Vectorstore.search_table self q qt k w).1
      = calls w ++ [EvSearch (Vectorstore.db_path self)
                      (Vectorstore.tablename self) (hybrid_query q qt k)] /\
      (forall e, execute_query t (hybrid_query q qt k) = Raise e ->
         (Vectorstore.search_table self q qt k w).2 = Raise e) /\
      (execute_query t (hybrid_query q qt k) = Ok [] ->
         (Vectorstore.search_table self q qt k w).2 = Ok [])
  end.
Proof.
  destruct (table_at (Vectorstore.db_path self)
              (Vectorstore.tablename self) w) as [t|] eqn:Ht.
  - rewrite (search_table_run self q qt k w t Ht).
    split; [reflexivity |]. split; [reflexivity |].
    split; [intros e -> | intros ->]; reflexivity.
  - rewrite (search_table_missing self q qt k w Ht). split; reflexivity.
Qed.

End MoreSearch.

(** ** More on the evaluator *)

Section MoreDigits.
Context `{UnicodeDB}.

Lemma digits_value_nonneg ds : (0 <= digits_value ds)%Z.
Proof.
  induction ds as [|d ds IH]; simpl; [lia |].
  assert (0 <= 10 ^ Z.of_nat (length ds))%Z by (apply Z.pow_nonneg; lia).
  nia.
Qed.

Lemma span_digits_length s : length (span_digits s) <= length s.
Proof.
  induction s as [|c s IH]; simpl; [lia |].
  destruct (py_isdecimal c); simpl; lia.
Qed.

(** A match is no longer than the string it was found in. *)
Lemma re_search_digits_length s run :
  re_search_digits s = Some run -> length run <= length s.
Proof.
  induction s as [|c s IH]; simpl; [discriminate |].
  destruct (py_isdecimal c).
  - intros [= <-]. pose proof (span_digits_length s). simpl. lia.
  - intros Hs. specialize (IH Hs). lia.
Qed.

Lemma re_search_digits_exists s :
  Exists (fun c => py_isdecimal c = true) s <->
  exists run, re_search_digits s = Some run.
Proof.
  split.
  - intros Hex. destruct (re_search_digits s) as [run|] eqn:Hs; [eauto |].
    apply re_search_digits_none in Hs.
    apply List.Exists_exists in Hex as [c [Hin Hc]].
    rewrite List.Forall_forall in Hs. specialize (Hs c Hin).
    apply isdecimal_false in Hs. congruence.
  - intros [run Hs]. apply List.Exists_exists.
    destruct (List.Forall_Exists_dec (fun c => py_isdecimal c = false)
                (fun c => bool_dec (py_isdecimal c) false) s)
      as [Hall | Hex].
    + assert (re_search_digits s = None) as Hnone.
      { apply re_search_digits_none.
        eapply List.Forall_impl; [| exact Hall].
        intros c Hc. now apply isdecimal_false. }
      congruence.
    + apply List.Exists_exists in Hex as [c [Hin Hc]].
      exists c. split; [exact Hin |]. now destruct (py_isdecimal c).
Qed.

(** X11: on a [str] with a decimal digit anywhere, [normalize_metric]
    returns nothing but an [int] that is not negative (a sign before the
    digits is dropped), and it does return one when the [str] has no more
    than 4300 characters; and a [str] is normalized to an [int] only if it
    has a digit. *)
Theorem normalize_metric_str_digit (s : str) :
  (Exists (fun c => py_isdecimal c = true) s ->
   (forall v, EvaluatorRAG.normalize_metric (PyStr s) = Ok v ->
      exists n, v = PyInt n /\ (0 <= n)%Z) /\
   ((Z.of_nat (length s) <= int_max_str_digits)%Z ->
    exists n, EvaluatorRAG.normalize_metric (PyStr s) = Ok (PyInt n) /\
              (0 <= n)%Z)) /\
  (forall n, EvaluatorRAG.normalize_metric (PyStr s) = Ok (PyInt n) ->
     Exists (fun c => py_isdecimal c = true) s /\ (0 <= n)%Z).
Proof.
  pose proof (normalize_metric_str s) as Hs.
  destruct (re_search_digits s) as [run|] eqn:Hrun.
  - destruct Hs as [ds [Hds [Hne Hs]]]. rewrite Hs.
    pose proof (re_search_digits_length s run Hrun) as Hlen.
    assert (Hex : Exists (fun c => py_isdecimal c = true) s)
      by (apply re_search_digits_exists; eauto).
    split; [intros _; split |].
    + intros v.
      destruct (int_max_str_digits <? Z.of_nat (length run))%Z;
        [discriminate |].
      intros [= <-]. eexists. split; [reflexivity |].
      apply digits_value_nonneg.
    + intros Hs'.
      destruct (Z.ltb_spec int_max_str_digits (Z.of_nat (length run)));
        [lia |].
      eexists. split; [reflexivity | apply digits_value_nonneg].
    + intros n.
      destruct (int_max_str_digits <? Z.of_nat (length run))%Z;
        [discriminate |].
      intros [= <-]. split; [exact Hex | apply digits_value_nonneg].
  - split.
    + intros Hex. apply re_search_digits_exists in Hex as [run Hex].
      congruence.
    + intros n. rewrite Hs. discriminate.
Qed.

End MoreDigits.

Lemma normalize_metric_str_digit_witness :
  exists n,
    @EvaluatorRAG.normalize_metric ascii_only (PyStr (py "-5"))
    = Ok (PyInt n) /\
    (0 <= n)%Z.
Proof.
  apply (proj1 (@normalize_metric_str_digit ascii_only (py "-5"))).
  - apply List.Exists_cons_tl. apply List.Exists_cons_hd. reflexivity.
  - vm_compute. discriminate.
Defined.

Example normalize_drops_sign_and_fraction :
  @EvaluatorRAG.normalize_metric ascii_only (PyStr (py "-5")) = Ok (PyInt 5) /\
  @EvaluatorRAG.normalize_metric ascii_only (PyStr (py "7.5/10"))
  = Ok (PyInt 7) /\
  @EvaluatorRAG.normalize_metric ascii_only (PyStr (py "007")) = Ok (PyInt 7).
Proof. repeat split; reflexivity. Qed.

Section MoreEvaluator.
Context `{Embedding} `{LanguageModel} `{UnicodeDB}.

(** X12: [EvaluatorRAG.forward] calls the model exactly once and never
    touches the storage.  In this order: it raises the error of the model
    when the model fails; [AttributeError] for [accuracy_metric] when the
    reply lacks that field; the [ValueError] of [int] when the metric is a
    [str] whose first run of digits is longer than 4300 digits;
    [AttributeError] for [rationale_metric] when the reply lacks that
    field; and returns the record of the evaluation otherwise. *)
Theorem evaluator_forward_errors
  (query context_chunks answer answer_rationale : value) (w : World) :
  let inputs :=
    evaluate_inputs query context_chunks answer answer_rationale in
  let run :=
    EvaluatorRAG.forward query context_chunks answer answer_rationale w in
  storage run.1 = storage w /\
  calls run.1 = calls w ++ [EvLM EvaluateAnswer inputs] /\
  match lm_call (calls w) EvaluateAnswer inputs with
  | Raise e => run.2 = Raise e
  | Ok evaluation =>
      match evaluation !! "accuracy_metric" with
      | None => run.2 = Raise (AttributeError "accuracy_metric")
      | Some raw =>
          match EvaluatorRAG.normalize_metric raw with
          | Raise e =>
              run.2 = Raise (ValueError int_limit_msg) /\
              exists s digits,
                raw = PyStr s /\ re_search_digits s = Some digits /\
                (int_max_str_digits < Z.of_nat (length digits))%Z
          | Ok accuracy_metric =>
              match evaluation !! "rationale_metric" with
              | None => run.2 = Raise (AttributeError "rationale_metric")
              | Some rationale_metric =>
                  run.2
                  = Ok (evaluation_record query context_chunks answer
                          answer_rationale accuracy_metric rationale_metric)
              end
          end
      end
  end.
Proof.
  intros inputs run. subst run. rewrite evaluator_forward_run.
  split; [reflexivity |]. split; [reflexivity |].
  unfold evaluation_outcome. fold inputs. cbn [snd].
  destruct (lm_call (calls w) EvaluateAnswer inputs) as [evaluation | e];
    [| reflexivity].
  cbn [rbind].
  destruct (evaluation !! "accuracy_metric") as [raw|]; [| reflexivity].
  destruct (EvaluatorRAG.normalize_metric raw) as [acc | e] eqn:Hacc.
  - cbn [rbind].
    destruct (evaluation !! "rationale_metric") as [rm|]; reflexivity.
  - apply normalize_metric_raises in Hacc as [-> Hraw].
    split; [reflexivity | exact Hraw].
Qed.

(** X13: the [accuracy_metric] of a result of [EvaluatorRAG.forward] is
    already normalized: normalizing it returns it, and when it is a [str]
    it holds no decimal digit. *)
Theorem evaluator_forward_metric_normalized
  (query context_chunks answer answer_rationale : value)
  (w w' : World) (p : Prediction) :
  EvaluatorRAG.forward query context_chunks answer answer_rationale w
  = (w', Ok p) ->
  exists accuracy_metric,
    p !! "accuracy_metric" = Some accuracy_metric /\
    EvaluatorRAG.normalize_metric accuracy_metric = Ok accuracy_metric /\
    (forall s, accuracy_metric = PyStr s ->
       Forall (fun c => py_isdecimal c = false) s).
Proof.
  rewrite evaluator_forward_run. unfold evaluation_outcome.
  intros [= _ Hp].
  destruct (lm_call (calls w) EvaluateAnswer _) as [evaluation | e];
    [| discriminate].
  cbn [rbind] in Hp.
  destruct (evaluation !! "accuracy_metric") as [raw|]; [| discriminate].
  destruct (EvaluatorRAG.normalize_metric raw) as [acc | e] eqn:Hacc;
    [| discriminate].
  cbn [rbind] in Hp.
  destruct (evaluation !! "rationale_metric") as [rm|]; [| discriminate].
  injection Hp as <-. exists acc. split; [reflexivity |].
  assert (Hfix : forall s, acc = PyStr s -> re_search_digits s = None).
  { intros s ->.
    destruct (normalize_metric_result raw (PyStr s) Hacc eq_refl)
      as [E [s' [E' Hnone]]].
    subst raw. injection E' as <-. exact Hnone. }
  split.
  - destruct acc as [| b | n | f | s | o]; try reflexivity.
    unfold EvaluatorRAG.normalize_metric. now rewrite (Hfix s eq_refl).
  - intros s Hs. specialize (Hfix s Hs).
    apply re_search_digits_none in Hfix.
    eapply List.Forall_impl; [| exact Hfix].
    intros c Hc. now apply isdecimal_false.
Qed.

End MoreEvaluator.

Lemma evaluator_forward_metric_normalized_witness :
  exists accuracy_metric,
    tuesday_evaluation !! "accuracy_metric" = Some accuracy_metric /\
    @EvaluatorRAG.normalize_metric ascii_only accuracy_metric
    = Ok accuracy_metric /\
    (forall s, accuracy_metric = PyStr s ->
       Forall (fun c => @py_isdecimal ascii_only c = false) s).
Proof.
  apply (@evaluator_forward_metric_normalized demo_embedding demo_lm
           ascii_only (PyStr tuesday) (PyStr hours) (PyStr (py "Yes")) PyNone
           empty_world
           (logged (EvLM EvaluateAnswer
                      (evaluate_inputs (PyStr tuesday) (PyStr hours)
                         (PyStr (py "Yes")) PyNone)) empty_world)
           tuesday_evaluation).
  reflexivity.
Defined.

(** ** More on the pipeline *)

Section MorePipeline.
Context `{SearchEngine} `{LanguageModel} `{UnicodeDB}.

(** X14: a result of [RAG.forward] has exactly the fields [query],
    [context_chunks], [answer] and [answer_rationale]: the query as
    passed, the context that was retrieved with the hybrid query of limit
    3, and the two fields of the model's reply (any other field of the
    reply is dropped); the storage is unchanged and the calls made are one
    search followed by one generation. *)
Theorem rag_forward_frame (self : RAG.t) (query : str) (w w' : World)
  (p : Prediction) :
  RAG.forward self query w = (w', Ok p) ->
  let vs := RAG.vectorstore self in
  let ev :=
    EvSearch (Vectorstore.db_path vs) (Vectorstore.tablename vs)
      (hybrid_query query (py "hybrid") 3) in
  exists t rs prediction,
    table_at (Vectorstore.db_path vs) (Vectorstore.tablename vs) w = Some t /\
    execute_query t (hybrid_query query (py "hybrid") 3) = Ok rs /\
    lm_call (calls w ++ [ev]) GenerateAnswer
      (generate_inputs query (py_join separator (List.map text rs)))
    = Ok prediction /\
    p !! "query" = Some (PyStr query) /\
    p !! "context_chunks"
    = Some (PyStr (py_join separator (List.map text rs))) /\
    p !! "answer" = prediction !! "answer" /\
    p !! "answer_rationale" = prediction !! "answer_rationale" /\
    dom p = {[ "query"; "context_chunks"; "answer"; "answer_rationale" ]} /\
    storage w' = storage w /\
    calls w'
    = calls w ++ [ev; EvLM GenerateAnswer
                        (generate_inputs query
                           (py_join separator (List.map text rs)))].
Proof.
  intros Hrun vs ev. rewrite rag_forward_run in Hrun. cbv zeta in Hrun.
  fold vs in Hrun. fold ev in Hrun.
  destruct (table_at _ _ w) as [t|] eqn:Ht; [| discriminate].
  destruct (execute_query t _) as [rs | e] eqn:Hrs; [| discriminate].
  unfold generation_outcome in Hrun.
  change (calls (logged ev w)) with (calls w ++ [ev]) in Hrun.
  destruct (lm_call _ GenerateAnswer _) as [prediction | e] eqn:Hlm;
    [| discriminate].
  cbn [rbind] in Hrun.
  destruct (prediction !! "answer") as [a|] eqn:Ha; [| discriminate].
  destruct (prediction !! "answer_rationale") as [ar|] eqn:Har;
    [| discriminate].
  cbn [rbind] in Hrun. injection Hrun as <- <-.
  exists t, rs, prediction.
  split; [reflexivity |]. split; [exact Hrs |]. split; [exact Hlm |].
  rewrite Ha, Har. unfold answer_record.
  split; [reflexivity |]. split; [reflexivity |].
  split; [reflexivity |]. split; [reflexivity |].
  split; [rewrite !dom_insert_L, dom_singleton_L; set_solver |].
  split; [reflexivity |].
  cbn [logged calls]. now rewrite <- app_assoc.
Qed.

(** X15: once the retrieval succeeded, [RAG.forward] raises the error of
    the model when the model fails, [AttributeError] for [answer] when the
    reply lacks that field (whether or not the rationale is there),
    [AttributeError] for [answer_rationale] when only that one is missing,
    and returns the record of the answer otherwise. *)
Theorem rag_forward_errors (self : RAG.t) (query : str) (w : World)
  (t : Table) (rs : list Schema) :
  let vs := RAG.vectorstore self in
  let ev :=
    EvSearch (Vectorstore.db_path vs) (Vectorstore.tablename vs)
      (hybrid_query query (py "hybrid") 3) in
  table_at (Vectorstore.db_path vs) (Vectorstore.tablename vs) w = Some t ->
  execute_query t (hybrid_query query (py "hybrid") 3) = Ok rs ->
  match lm_call (calls w ++ [ev]) GenerateAnswer
          (generate_inputs query (py_join separator (List.map text rs)))
  with
  | Raise e => (RAG.forward self query w).2 = Raise e
  | Ok prediction =>
      match prediction !! "answer", prediction !! "answer_rationale" with
      | None, _ =>
          (RAG.forward self query w).2 = Raise (AttributeError "answer")
      | Some _, None =>
          (RAG.forward self query w).2
          = Raise (AttributeError "answer_rationale")
      | Some a, Some ar =>
          (RAG.forward self query w).2
          = Ok (answer_record query (py_join separator (List.map text rs))
                  a ar)
      end
  end.
Proof.
  intros vs ev Ht Hrs. rewrite rag_forward_run. fold vs. rewrite Ht.
  cbv zeta. rewrite Hrs. unfold generation_outcome. fold ev.
  change (calls (logged ev w)) with (calls w ++ [ev]). cbn [snd].
  destruct (lm_call _ GenerateAnswer _) as [prediction | e]; [| reflexivity].
  cbn [rbind].
  destruct (prediction !! "answer") as [a|]; [| reflexivity].
  destruct (prediction !! "answer_rationale") as [ar|]; reflexivity.
Qed.

Lemma process_question_ok_calls (self : RAG_Assitant.t) (query : str)
  (w w1 : World) d :
  RAG_Assitant.process_question self query w = (w1, Ok d) ->
  let vs := RAG.vectorstore (RAG_Assitant.rag self) in
  storage w1 = storage w /\
  exists gi ei,
    calls w1
    = calls w ++ [EvSearch (Vectorstore.db_path vs) (Vectorstore.tablename vs)
                    (hybrid_query query (py "hybrid") 3);
                  EvLM GenerateAnswer gi; EvLM EvaluateAnswer ei].
Proof.
  rewrite process_question_run. cbv zeta. intros Hrun.
  destruct (table_at _ _ w) as [t|]; [| discriminate].
  destruct (execute_query t _) as [rs | e]; [| discriminate].
  destruct (generation_outcome _ query _) as [[a ar] | e]; [| discriminate].
  destruct (evaluation_outcome _ _ _ _ _) as [[acc rm] | e];
    [| discriminate].
  injection Hrun as <- _. split; [reflexivity |].
  eexists. eexists. cbn [logged calls]. now rewrite <- !app_assoc.
Qed.

(** X16: nothing is cached between questions: when the same question is
    processed twice and both calls return, the second call repeats the
    search, the generation and the evaluation, so six calls leave the
    program in all, and the storage is still the one before the first. *)
Theorem process_question_not_cached (self : RAG_Assitant.t) (query : str)
  (w w1 w2 : World) d1 d2 :
  RAG_Assitant.process_question self query w = (w1, Ok d1) ->
  RAG_Assitant.process_question self query w1 = (w2, Ok d2) ->
  let vs := RAG.vectorstore (RAG_Assitant.rag self) in
  let search :=
    EvSearch (Vectorstore.db_path vs) (Vectorstore.tablename vs)
      (hybrid_query query (py "hybrid") 3) in
  storage w2 = storage w /\
  exists g1 e1 g2 e2,
    calls w2
    = calls w ++ [search; EvLM GenerateAnswer g1; EvLM EvaluateAnswer e1;
                  search; EvLM GenerateAnswer g2; EvLM EvaluateAnswer e2].
Proof.
  intros Hfirst Hsecond vs search.
  destruct (process_question_ok_calls self query w w1 d1 Hfirst)
    as [Hst1 [g1 [e1 Hc1]]].
  destruct (process_question_ok_calls self query w1 w2 d2 Hsecond)
    as [Hst2 [g2 [e2 Hc2]]].
  split; [congruence |].
  exists g1, e1, g2, e2. rewrite Hc2, Hc1. now rewrite <- app_assoc.
Qed.


(** X18: over a path whose table [context] exists, [RAG_Assitant(c, p)]
    ingests nothing of [c]: the rows stay those of the table, only its
    index is rebuilt, whatever the new corpus is. *)
Theorem assistant_init_keeps_existing_corpus (c p : str) (w : World)
  (t0 : Table) :
  table_at p (py "context") w = Some t0 ->
  RAG_Assitant.__init__ (Passed (Some c)) (Passed (Some p)) w
  = (lancedb.put_table p (py "context") (indexed t0) w,
     Ok (RAG_Assitant.Build
           (RAG.Build (Vectorstore.Build c p (py "context") 50)))) /\
  table_rows p (py "context")
    (RAG_Assitant.__init__ (Passed (Some c)) (Passed (Some p)) w).1
  = Some (rows t0).
Proof.
  intros Ht.
  destruct (vectorstore_init_ok c p (py "context") 50 w
              ltac:(right; rewrite Ht; eauto))
    as [t [Hinit Hsame]].
  rewrite (Hsame t0 Ht) in Hinit.
  assert (Hrun :
    RAG_Assitant.__init__ (Passed (Some c)) (Passed (Some p)) w
    = (lancedb.put_table p (py "context") (indexed t0) w,
       Ok (RAG_Assitant.Build
             (RAG.Build (Vectorstore.Build c p (py "context") 50))))).
  { unfold RAG_Assitant.__init__, RAG.__init__, bind.
    change Vectorstore.default_tablename with (py "context").
    change Vectorstore.default_chunk_size with 50%Z.
    now rewrite Hinit. }
  split; [exact Hrun |].
  rewrite Hrun. unfold table_rows. cbn [fst].
  now rewrite table_at_put_table.
Qed.

End MorePipeline.

Lemma rag_forward_frame_witness :
  (@RAG.forward demo_embedding demo_engine demo_lm (RAG.Build hours_store)
     tuesday hours_world).2
  = Ok tuesday_answer /\
  tuesday_answer !! "query" = Some (PyStr tuesday) /\
  dom tuesday_answer
  = {[ "query"; "context_chunks"; "answer"; "answer_rationale" ]}.
Proof.
  assert (Hrun :
    @RAG.forward demo_embedding demo_engine demo_lm (RAG.Build hours_store)
      tuesday hours_world
    = ((@RAG.forward demo_embedding demo_engine demo_lm
          (RAG.Build hours_store) tuesday hours_world).1,
       Ok tuesday_answer)) by reflexivity.
  split; [now rewrite Hrun |].
  destruct (@rag_forward_frame demo_embedding demo_engine demo_lm
              (RAG.Build hours_store) tuesday hours_world _ tuesday_answer
              Hrun)
    as [t [rs [prediction [_ [_ [_ [Hq [_ [_ [_ [Hdom _]]]]]]]]]]].
  split; assumption.
Defined.

Lemma rag_forward_errors_witness :
  (@RAG.forward demo_embedding demo_engine malformed_lm
     (RAG.Build hours_store) tuesday hours_world).2
  = Raise (AttributeError "answer").
Proof.
  exact (@rag_forward_errors demo_embedding demo_engine malformed_lm
           (RAG.Build hours_store) tuesday hours_world
           {| rows := [hours_row]; fts_index := Some [hours] |} [hours_row]
           eq_refl eq_refl).
Defined.

Lemma process_question_not_cached_witness :
  length (calls tuesday_world_2) = 6 /\
  storage tuesday_world_2 = storage hours_world.
Proof.
  assert (Hfirst :
    @RAG_Assitant.process_question demo_embedding demo_engine demo_lm
      ascii_only hours_assistant tuesday hours_world
    = (tuesday_world_1, Ok tuesday_result)) by reflexivity.
  assert (Hsecond :
    @RAG_Assitant.process_question demo_embedding demo_engine demo_lm
      ascii_only hours_assistant tuesday tuesday_world_1
    = (tuesday_world_2, Ok tuesday_result)) by reflexivity.
  destruct (@process_question_not_cached demo_embedding demo_engine demo_lm
              ascii_only hours_assistant tuesday hours_world tuesday_world_1
              tuesday_world_2 tuesday_result tuesday_result Hfirst Hsecond)
    as [Hst [g1 [e1 [g2 [e2 Hc]]]]].
  split; [| exact Hst]. rewrite Hc. reflexivity.
Defined.


Lemma assistant_init_keeps_existing_corpus_witness :
  table_rows (py "./db_lancedb") (py "context")
    (@RAG_Assitant.__init__ demo_embedding (Passed (Some (py "Open daily.")))
       (Passed (Some (py "./db_lancedb"))) hours_world).1
  = Some [hours_row].
Proof.
  apply (proj2 (@assistant_init_keeps_existing_corpus demo_embedding
                  (py "Open daily.") (py "./db_lancedb") hours_world
                  {| rows := [hours_row]; fts_index := Some [hours] |}
                  eq_refl)).
Defined.
